(** * AlertNow: a shallow embedding of [src/index.ts]

    The library has two classes.  [AlertNowBuilder] accumulates a driver
    name and a webhook URL and builds an [AlertNow]; [AlertNow.send]
    validates its arguments, renders a text from [DEF_TEMPLATE] with three
    chained [String.prototype.replace] calls and posts it with [fetch]
    without awaiting the exchange.

    Conventions of the embedding.
    - A JavaScript string is a [string]; a character stands for one code
      unit below 256.
    - A JavaScript value is a [value]; numbers are the integers that print
      in plain decimal notation.
    - Methods are programs of a state monad with exceptions.  The state of
      the builder methods is the [heap], where objects have an identity
      ([ref]); the state of [send] is the [trace] of the calls of
      [console.error] and [fetch].
    - A promise is the computation that runs after the caller has
      returned; how the network answers a request is an argument of the
      model. *)

From Stdlib Require Import String Ascii List ZArith Bool Arith Lia.
From Stdlib Require Import DecimalString.
Import ListNotations.

Set Warnings "-register-all".
Local Open Scope list_scope.
Local Open Scope string_scope.

(* ================================================================== *)
(** ** JavaScript values *)

Inductive value : Type :=
| VUndefined
| VNull
| VBoolean (b : bool)
| VNumber (n : Z)
| VString (s : string)
| VArray (elements : list value)
| VObject (properties : list (string * value)).

(** [typeof v]. *)
Definition typeof (v : value) : string :=
  match v with
  | VUndefined => "undefined"
  | VNull => "object"
  | VBoolean _ => "boolean"
  | VNumber _ => "number"
  | VString _ => "string"
  | VArray _ => "object"
  | VObject _ => "object"
  end.

(** The abstract operation ToBoolean; [!v] is [negb (ToBoolean v)]. *)
Definition ToBoolean (v : value) : bool :=
  match v with
  | VUndefined => false
  | VNull => false
  | VBoolean b => b
  | VNumber n => negb (Z.eqb n 0)
  | VString s => negb (s =? "")
  | VArray _ => true
  | VObject _ => true
  end.

(** The string held by a value whose [typeof] is ["string"]. *)
Definition string_of (v : value) : string :=
  match v with
  | VString s => s
  | _ => ""
  end.

(** [v != null]: loose inequality with [null] singles out [null] and
    [undefined]. *)
Definition not_nullish (v : value) : bool :=
  match v with
  | VUndefined => false
  | VNull => false
  | _ => true
  end.

(** [Object.keys(v).length] for a [v] that is neither [null] nor
    [undefined]: the number of own enumerable string-keyed properties. *)
Definition Object_keys_length (v : value) : nat :=
  match v with
  | VString s => String.length s
  | VArray l => List.length l
  | VObject ps => List.length ps
  | _ => 0
  end.

(** A parameter with default value [{}]: the default replaces [undefined]
    only. *)
Definition default_empty_object (v : value) : value :=
  match v with
  | VUndefined => VObject []
  | _ => v
  end.

(* ================================================================== *)
(** ** Characters and strings *)

Definition nl : string := String "010"%char "".
Definition dquote : string := String "034"%char "".
Definition backslash : string := String "092"%char "".

(** [String.prototype.toLowerCase] on code units below 256: the letters
    A-Z and the Latin-1 capitals U+00C0-U+00DE (U+00D7 apart) move up by
    32. *)
Definition lower_char (c : ascii) : ascii :=
  let n := nat_of_ascii c in
  if (((65 <=? n) && (n <=? 90))
      || ((192 <=? n) && (n <=? 222) && negb (n =? 215)))%nat
  then ascii_of_nat (n + 32)
  else c.

Fixpoint toLowerCase (s : string) : string :=
  match s with
  | "" => ""
  | String c s' => String (lower_char c) (toLowerCase s')
  end.

(** Number::toString for an integer. *)
Definition Number_toString (n : Z) : string :=
  NilZero.string_of_int (Z.to_int n).

Fixpoint drop (n : nat) (s : string) : string :=
  match n, s with
  | O, _ => s
  | S n', String _ s' => drop n' s'
  | S _, "" => ""
  end.

(** ** [String.prototype.replace] with a string pattern *)

(** GetSubstitution for a match that has no capture groups: in the
    replacement text [$$] stands for a dollar, [$&] for the matched text,
    [$`] for the text before the match and [$'] for the text after it;
    every other character, a lone dollar included, stands for itself. *)
Fixpoint GetSubstitution (matched preceding following template : string)
  : string :=
  match template with
  | "" => ""
  | String c t =>
      if Ascii.eqb c "$"%char then
        match t with
        | "" => "$"
        | String d t' =>
            if Ascii.eqb d "$"%char then
              "$" ++ GetSubstitution matched preceding following t'
            else if Ascii.eqb d "&"%char then
              matched ++ GetSubstitution matched preceding following t'
            else if Ascii.eqb d "`"%char then
              preceding ++ GetSubstitution matched preceding following t'
            else if Ascii.eqb d "'"%char then
              following ++ GetSubstitution matched preceding following t'
            else
              "$" ++ GetSubstitution matched preceding following t
        end
      else String c (GetSubstitution matched preceding following t)
  end.

(** The text before and the text after the first occurrence of [pat]. *)
Fixpoint split_first (pat s : string) : option (string * string) :=
  if prefix pat s then Some ("", drop (String.length pat) s)
  else
    match s with
    | "" => None
    | String c s' =>
        match split_first pat s' with
        | Some (before, after) => Some (String c before, after)
        | None => None
        end
    end.

(** [s.replace(pat, repl)]: only the first occurrence is replaced, and a
    string without occurrence is returned as it is. *)
Definition replace (pat repl s : string) : string :=
  match split_first pat s with
  | None => s
  | Some (before, after) =>
      before ++ GetSubstitution pat before after repl ++ after
  end.

(* ================================================================== *)
(** ** [JSON.stringify] *)

Definition hex_digit (n : nat) : string :=
  String (ascii_of_nat (if (n <? 10)%nat then 48 + n else 87 + n)) "".

(** One code unit inside QuoteJSONString. *)
Definition quote_char (c : ascii) : string :=
  let n := nat_of_ascii c in
  if (n =? 8)%nat then backslash ++ "b"
  else if (n =? 9)%nat then backslash ++ "t"
  else if (n =? 10)%nat then backslash ++ "n"
  else if (n =? 12)%nat then backslash ++ "f"
  else if (n =? 13)%nat then backslash ++ "r"
  else if (n =? 34)%nat then backslash ++ dquote
  else if (n =? 92)%nat then backslash ++ backslash
  else if (n <? 32)%nat then
    backslash ++ "u00" ++ hex_digit (n / 16) ++ hex_digit (n mod 16)
  else String c "".

Fixpoint quote_chars (s : string) : string :=
  match s with
  | "" => ""
  | String c s' => quote_char c ++ quote_chars s'
  end.

Definition QuoteJSONString (s : string) : string :=
  dquote ++ quote_chars s ++ dquote.

Fixpoint join (sep : string) (l : list string) : string :=
  match l with
  | [] => ""
  | [x] => x
  | x :: l' => x ++ sep ++ join sep l'
  end.

(** SerializeJSONProperty: [None] is the result [undefined].  An array
    element without serialization is written [null]; an object property
    without one is left out. *)
Fixpoint SerializeJSONProperty (v : value) : option string :=
  match v with
  | VUndefined => None
  | VNull => Some "null"
  | VBoolean true => Some "true"
  | VBoolean false => Some "false"
  | VNumber n => Some (Number_toString n)
  | VString s => Some (QuoteJSONString s)
  | VArray l =>
      Some ("[" ++
            join "," (map (fun x =>
                             match SerializeJSONProperty x with
                             | Some t => t
                             | None => "null"
                             end) l)
            ++ "]")
  | VObject ps =>
      Some ("{" ++
            join "," (flat_map (fun kv =>
                                  match SerializeJSONProperty (snd kv) with
                                  | Some t =>
                                      [QuoteJSONString (fst kv) ++ ":" ++ t]
                                  | None => []
                                  end) ps)
            ++ "}")
  end.

Definition JSON_stringify (v : value) : option string :=
  SerializeJSONProperty v.

(** String concatenation applies ToString to a [JSON.stringify] result. *)
Definition ToString_result (r : option string) : string :=
  match r with
  | Some s => s
  | None => "undefined"
  end.

(* ================================================================== *)
(** ** The template (line 11) *)

Definition DEF_TEMPLATE : string :=
  "**$title**" ++ nl ++ nl ++ "message:```" ++ nl ++ nl ++ "$message```"
  ++ nl ++ "$data" ++ nl.

(* ================================================================== *)
(** ** Effects: a state monad with exceptions *)

(** What a [throw] carries: [new Error(message)], or the [TypeError] of the
    runtime. *)
Inductive exception : Type :=
| Error (message : string)
| TypeError (message : string).

Inductive completion (A : Type) : Type :=
| Return (a : A)
| Throw (e : exception).

Arguments Return {A} a.
Arguments Throw {A} e.

Section Monad.
Context {S : Type}.

Definition M (A : Type) : Type := S -> S * completion A.

Definition ret {A} (a : A) : M A := fun s => (s, Return a).

Definition throw {A} (e : exception) : M A := fun s => (s, Throw e).

Definition bind {A B} (m : M A) (k : A -> M B) : M B :=
  fun s =>
    match m s with
    | (s', Return a) => k a s'
    | (s', Throw e) => (s', Throw e)
    end.

(** [try { m } catch (e) { handler e }]. *)
Definition try_catch {A} (m : M A) (handler : exception -> M A) : M A :=
  fun s =>
    match m s with
    | (s', Return a) => (s', Return a)
    | (s', Throw e) => handler e s'
    end.
End Monad.

Arguments M : clear implicits.

Notation "x <- m ;; k" := (bind m (fun x => k))
  (at level 61, m at next level, right associativity).
Notation "m ;; k" := (bind m (fun _ => k))
  (at level 61, right associativity).

(* ================================================================== *)
(** ** The console and the network *)

Inductive console_arg : Type :=
| Text (s : string)
| Thrown (e : exception).

(** A call of [fetch]: its first argument, here a field of type
    [string | null], and the options. *)
Record Request : Type := {
  url : option string;
  method : string;
  headers : list (string * string);
  body : option string
}.

(** A response as far as the code reads it: [response.status] and the text
    that [response.text()] resolves to. *)
Record Response : Type := {
  status : Z;
  text : string
}.

(** [response.ok]. *)
Definition ok (r : Response) : bool :=
  ((200 <=? status r) && (status r <=? 299))%Z.

(** How the promise of [fetch] settles. *)
Inductive fetch_result : Type :=
| Responds (r : Response)
| Fails (e : exception).

Inductive event : Type :=
| console_error (args : list console_arg)
| fetch (request : Request).

(** The trace of a computation, oldest event first. *)
Definition trace : Type := list event.

Definition emit (ev : event) : M trace unit :=
  fun log => ((log ++ [ev])%list, Return tt).

(* ================================================================== *)
(** ** class AlertNow (lines 14-121) *)

Record AlertNow : Type := {
  driver : option string;
  webhookUrl : option string
}.

(** ToBoolean of a field of type [string | null]. *)
Definition truthy (field : option string) : bool :=
  match field with
  | Some s => negb (s =? "")
  | None => false
  end.

(** [field === s] for a field of type [string | null]. *)
Definition field_is (field : option string) (s : string) : bool :=
  match field with
  | Some f => f =? s
  | None => false
  end.

(** Lines 67-72. *)
Definition dataStr (data : value) : string :=
  if not_nullish data && (0 <? Object_keys_length data)%nat
  then "data:```" ++ nl ++ nl ++ ToString_result (JSON_stringify data)
       ++ "```" ++ nl
  else "".

(** Line 74, on a data segment that is already built. *)
Definition render (title message segment : string) : string :=
  replace "$data" segment
    (replace "$message" message (replace "$title" title DEF_TEMPLATE)).

Definition content (title message : string) (data : value) : string :=
  render title message (dataStr data).

(** Lines 76-87: the request handed to [fetch]. *)
Definition request (this : AlertNow) (title message : string) (data : value)
  : Request :=
  {| url := webhookUrl this;
     method := "POST";
     headers := [("Content-Type", "application/json")];
     body := JSON_stringify
               (VObject [("content", VString (content title message data))]) |}.

(** Lines 80-98 after the [await]: the body of the [try] and its [catch]. *)
Definition settle (answer : fetch_result) : M trace Response :=
  try_catch
    (match answer with
     | Fails e => throw e
     | Responds response =>
         if negb (ok response) then
           let errorText := text response in
           throw (Error ("Discord API error: "
                         ++ Number_toString (status response)
                         ++ " - " ++ errorText))
         else ret response
     end)
    (fun error =>
       emit (console_error
               [Text "Failed to send notification to Discord:"; Thrown error]) ;;
       throw error).

(** A promise, seen as the computation that runs once the awaited exchange
    has settled, after the caller has returned. *)
Definition promise (A : Type) : Type := M trace A.

(** A promise with nothing left to do. *)
Definition resolved : promise unit := ret tt.

(** The call of an [async] function never throws: what its body throws
    before the first [await] rejects the promise it returns. *)
Definition async {A} (body : M trace (promise A)) : M trace (promise A) :=
  fun log =>
    match body log with
    | (log', Return p) => (log', Return p)
    | (log', Throw e) => (log', Return (throw e))
    end.

(** [p.catch(onRejected)], the value of [p] left aside. *)
Definition catch {A} (p : promise A) (onRejected : exception -> M trace unit)
  : promise unit :=
  try_catch (_ <- p ;; ret tt) onRejected.

(** Lines 66-99.  The call of [fetch] comes before the [await]; [network]
    tells how the exchange of a request ends. *)
Definition _sendDiscord (this : AlertNow) (title message : string)
    (data : value) (network : Request -> fetch_result)
  : M trace (promise Response) :=
  async
    (let data := default_empty_object data in
     let req := request this title message data in
     emit (fetch req) ;;
     ret (settle (network req))).

(** Lines 33-56.  The result is the task that [send] leaves behind. *)
Definition send (this : AlertNow) (title message data : value)
    (network : Request -> fetch_result) : M trace (promise unit) :=
  let data := default_empty_object data in
  if negb (truthy (driver this)) || negb (truthy (webhookUrl this)) then
    emit (console_error [Text "AlertNow instance not properly configured. Use setDriver(), setWebhook(), and build() before sending."]) ;;
    ret resolved
  else if negb (ToBoolean title) || negb (typeof title =? "string") then
    emit (console_error
            [Text "AlertNow Error: Title is required and must be a string"]) ;;
    ret resolved
  else if negb (ToBoolean message) || negb (typeof message =? "string") then
    emit (console_error
            [Text "AlertNow Error: Message is required and must be a string"]) ;;
    ret resolved
  else
    if field_is (driver this) "discord" then
      p <- _sendDiscord this (string_of title) (string_of message) data
             network ;;
      ret (catch p (fun error =>
                      emit (console_error
                              [Text "AlertNow Error:"; Thrown error])))
    else ret resolved.

(** What a caller of [send] can observe: how the call completes, the events
    up to its return, the events of the task left behind and the error
    that this task does not handle, if any. *)
Record outcome : Type := {
  returned : completion unit;
  before_return : trace;
  after_return : trace;
  unhandled : option exception
}.

Definition run_send (this : AlertNow) (title message data : value)
    (network : Request -> fetch_result) : outcome :=
  match send this title message data network [] with
  | (log, Return task) =>
      {| returned := Return tt;
         before_return := log;
         after_return := fst (task []);
         unhandled := match snd (task []) with
                      | Return _ => None
                      | Throw e => Some e
                      end |}
  | (log, Throw e) =>
      {| returned := Throw e;
         before_return := log;
         after_return := [];
         unhandled := None |}
  end.

(* ================================================================== *)
(** ** class AlertNowBuilder (lines 123-174) *)

Record AlertNowBuilder : Type := {
  builder_driver : option string;
  builder_webhookUrl : option string
}.

Inductive object : Type :=
| ObjBuilder (b : AlertNowBuilder)
| ObjAlertNow (a : AlertNow).

Definition ref : Type := nat.
Definition heap : Type := list object.

Fixpoint update (r : ref) (o : object) (h : heap) : heap :=
  match h, r with
  | [], _ => []
  | _ :: h', O => o :: h'
  | x :: h', S r' => x :: update r' o h'
  end.

Definition new_object (o : object) : M heap ref :=
  fun h => ((h ++ [o])%list, Return (List.length h)).

Definition read_builder (this : ref) : M heap AlertNowBuilder :=
  fun h =>
    match nth_error h this with
    | Some (ObjBuilder b) => (h, Return b)
    | _ => (h, Throw (TypeError "not an AlertNowBuilder"))
    end.

Definition write_builder (this : ref) (b : AlertNowBuilder) : M heap unit :=
  fun h => (update this (ObjBuilder b) h, Return tt).

(** [new AlertNowBuilder()]: both fields start as [null]. *)
Definition new_AlertNowBuilder : M heap ref :=
  new_object (ObjBuilder {| builder_driver := None;
                            builder_webhookUrl := None |}).

(** [new AlertNow(driver, webhookUrl)] (lines 21-24). *)
Definition new_AlertNow (driver webhookUrl : option string) : M heap ref :=
  new_object (ObjAlertNow {| driver := driver; webhookUrl := webhookUrl |}).

Definition only_discord : string :=
  "Currently only " ++ dquote ++ "discord" ++ dquote ++ " driver is supported".

(** Lines 132-143. *)
Definition setDriver (this : ref) (driver : value) : M heap ref :=
  if negb (ToBoolean driver) || negb (typeof driver =? "string") then
    throw (Error "Driver must be a valid string")
  else if negb (toLowerCase (string_of driver) =? "discord") then
    throw (Error only_discord)
  else
    b <- read_builder this ;;
    write_builder this
      {| builder_driver := Some (toLowerCase (string_of driver));
         builder_webhookUrl := builder_webhookUrl b |} ;;
    ret this.

(** Lines 150-157. *)
Definition setWebhook (this : ref) (webhookUrl : value) : M heap ref :=
  if negb (ToBoolean webhookUrl) || negb (typeof webhookUrl =? "string") then
    throw (Error "A valid webhook URL is required")
  else
    b <- read_builder this ;;
    write_builder this
      {| builder_driver := builder_driver b;
         builder_webhookUrl := Some (string_of webhookUrl) |} ;;
    ret this.

(** Lines 163-173. *)
Definition build (this : ref) : M heap ref :=
  b <- read_builder this ;;
  if negb (truthy (builder_driver b)) then
    throw (Error "Driver must be set before building")
  else if negb (truthy (builder_webhookUrl b)) then
    throw (Error "Webhook URL must be set before building")
  else
    new_AlertNow (builder_driver b) (builder_webhookUrl b).

(** ** Programs over the public interface *)

(** The calls a client can make: the class [AlertNow] is not exported, so
    its objects come from [build] alone. *)
Inductive call : Type :=
| CallNew
| CallSetDriver (this : ref) (driver : value)
| CallSetWebhook (this : ref) (webhookUrl : value)
| CallBuild (this : ref).

Definition exec (c : call) : M heap ref :=
  match c with
  | CallNew => new_AlertNowBuilder
  | CallSetDriver this v => setDriver this v
  | CallSetWebhook this v => setWebhook this v
  | CallBuild this => build this
  end.

(** A client that catches what a call throws and goes on. *)
Fixpoint run (cs : list call) (h : heap) : heap :=
  match cs with
  | [] => h
  | c :: cs' => run cs' (fst (exec c h))
  end.

Definition reachable (h : heap) : Prop := exists cs, run cs [] = h.

(** The AlertNow object behind a reference. *)
Definition sender_at (h : heap) (r : ref) : option AlertNow :=
  match nth_error h r with
  | Some (ObjAlertNow a) => Some a
  | _ => None
  end.

Definition builder_at (h : heap) (r : ref) : option AlertNowBuilder :=
  match nth_error h r with
  | Some (ObjBuilder b) => Some b
  | _ => None
  end.

(* ================================================================== *)
(** ** Notions used in the statements *)

(** Text in which no replacement pattern can start. *)
Fixpoint dollar_free (s : string) : bool :=
  match s with
  | "" => true
  | String c s' => negb (Ascii.eqb c "$"%char) && dollar_free s'
  end.

(** What stands between [$title] and [$message] in the template, and
    between [$message] and [$data]. *)
Definition before_message : string :=
  "**" ++ nl ++ nl ++ "message:```" ++ nl ++ nl.

Definition before_data : string := "```" ++ nl.

(** What follows [$title] in the template. *)
Definition after_title : string :=
  before_message ++ "$message" ++ before_data ++ "$data" ++ nl.

(** The template of the specification (section 4.2), filled slot by slot:
    a bolded title line, a blank line, the label, the fenced message and
    the data block. *)
Definition spec_template (title message dataBlock : string) : string :=
  "**" ++ title ++ "**" ++ nl ++ nl ++ "message:```" ++ nl ++ nl
  ++ message ++ "```" ++ nl ++ dataBlock ++ nl.

(** The data block of the specification (section 4.2). *)
Definition spec_dataBlock (jsonSerializedData : string) : string :=
  "data:```" ++ nl ++ nl ++ jsonSerializedData ++ "```" ++ nl.

(** The title as the first replacement writes it. *)
Definition title_text (title : string) : string :=
  GetSubstitution "$title" "**" after_title title.

(** The characters that form a replacement pattern after a dollar. *)
Definition special (d : ascii) : bool :=
  Ascii.eqb d "$" || Ascii.eqb d "&" || Ascii.eqb d "`" || Ascii.eqb d "'".

(** The character [c] is none of [w]. *)
Fixpoint absent (c : ascii) (w : string) : bool :=
  match w with
  | "" => true
  | String d w' => negb (Ascii.eqb d c) && absent c w'
  end.

(** [pat] occurs in [s]. *)
Definition contains (pat s : string) : Prop :=
  exists a b, s = a ++ pat ++ b.

(** The text after two of the three replacements. *)
Definition second (title message : string) : string :=
  replace "$message" message (replace "$title" title DEF_TEMPLATE).

(** A call-time argument that is a non-empty string. *)
Definition nonempty_string (v : value) : bool :=
  match v with
  | VString s => negb (s =? "")
  | _ => false
  end.

(** A sender as [build] makes them. *)
Definition configured (this : AlertNow) : Prop :=
  driver this = Some "discord" /\ truthy (webhookUrl this) = true.

(** The outcome of a call that only reports a complaint. *)
Definition report (complaint : string) : outcome :=
  {| returned := Return tt;
     before_return := [console_error [Text complaint]];
     after_return := [];
     unhandled := None |}.

(** The two reports of a failed exchange: the one of the [catch] of
    [_sendDiscord] (line 96) and the one of the [.catch] of [send]
    (line 53). *)
Definition reports (error : exception) : trace :=
  [console_error [Text "Failed to send notification to Discord:"; Thrown error];
   console_error [Text "AlertNow Error:"; Thrown error]].

(** The error of line 91. *)
Definition api_error (response : Response) : exception :=
  Error ("Discord API error: " ++ Number_toString (status response)
         ++ " - " ++ text response).

(** What the background task of a [send] writes, given how the exchange
    ends. *)
Definition background (answer : fetch_result) : trace :=
  match answer with
  | Responds response => if ok response then [] else reports (api_error response)
  | Fails e => reports e
  end.

(** The invariant: a builder holds no driver or ["discord"], and never an
    empty URL; a sender is configured. *)
Definition builder_ok (b : AlertNowBuilder) : Prop :=
  (builder_driver b = None \/ builder_driver b = Some "discord")
  /\ builder_webhookUrl b <> Some "".

Definition object_ok (o : object) : Prop :=
  match o with
  | ObjBuilder b => builder_ok b
  | ObjAlertNow a => configured a
  end.

Definition heap_ok (h : heap) : Prop := Forall object_ok h.

(** A sender that a client can hold. *)
Definition built (this : AlertNow) : Prop :=
  exists h r, reachable h /\ sender_at h r = Some this.

(** The letters A-Z folded onto a-z. *)
Definition fold_case (c : ascii) : ascii :=
  let n := nat_of_ascii c in
  if ((65 <=? n) && (n <=? 90))%nat then ascii_of_nat (n + 32) else c.

(** A case-insensitive match, letter by letter. *)
Fixpoint same_ignoring_case (s t : string) : bool :=
  match s, t with
  | "", "" => true
  | String a s', String b t' =>
      Ascii.eqb (fold_case a) (fold_case b) && same_ignoring_case s' t'
  | _, _ => false
  end.

(** The supported platform of the specification. *)
Definition supported_platform (v : value) : bool :=
  match v with
  | VString s => same_ignoring_case s "discord"
  | _ => false
  end.

(** The request that the specification expects for a rendered text. *)
Definition post (endpoint rendered : string) : Request :=
  {| url := Some endpoint;
     method := "POST";
     headers := [("Content-Type", "application/json")];
     body := JSON_stringify (VObject [("content", VString rendered)]) |}.

(** Concrete inputs. *)
Definition example_sender : AlertNow :=
  {| driver := Some "discord";
     webhookUrl := Some "https://discord.test/api/webhooks/1" |}.

Definition answers (s : Z) (t : string) (_ : Request) : fetch_result :=
  Responds {| status := s; text := t |}.

(** A client program that builds [example_sender]. *)
Definition example_program : list call :=
  [CallNew;
   CallSetDriver 0 (VString "discord");
   CallSetWebhook 0 (VString "https://discord.test/api/webhooks/1");
   CallBuild 0].

Ltac example_is_built :=
  exists (run example_program []), 1;
  split; [exists example_program; reflexivity | reflexivity].

(** The text [{"k":"v"}]. *)
Definition json_k (v : string) : string :=
  "{" ++ dquote ++ "k" ++ dquote ++ ":" ++ dquote ++ v ++ dquote ++ "}".

(** The call ended with a thrown [Error]. *)
Definition throws (result : heap * completion ref) : Prop :=
  exists message, snd result = Throw (Error message).

(* ================================================================== *)
(** ** [_formatDiscordData] (lines 107-120) *)

(** ToString of a value.  An array joins its elements with commas, [null]
    and [undefined] elements being written as nothing. *)
Fixpoint ToString (v : value) : string :=
  match v with
  | VUndefined => "undefined"
  | VNull => "null"
  | VBoolean true => "true"
  | VBoolean false => "false"
  | VNumber n => Number_toString n
  | VString s => s
  | VArray l =>
      join "," (map (fun x =>
                       match x with
                       | VUndefined => ""
                       | VNull => ""
                       | _ => ToString x
                       end) l)
  | VObject _ => "[object Object]"
  end.

(** [JSON.stringify(v, null, 2)] below the indentation [indent]: every
    level adds two spaces, a member is written [key: value], and an array or
    object without member stays on one line. *)
Fixpoint SerializeJSONIndented (v : value) (indent : string) : option string :=
  match v with
  | VUndefined => None
  | VNull => Some "null"
  | VBoolean true => Some "true"
  | VBoolean false => Some "false"
  | VNumber n => Some (Number_toString n)
  | VString s => Some (QuoteJSONString s)
  | VArray l =>
      let inner := indent ++ "  " in
      match l with
      | [] => Some "[]"
      | _ :: _ =>
          Some ("[" ++ nl ++ inner ++
                join ("," ++ nl ++ inner)
                  (map (fun x =>
                          match SerializeJSONIndented x inner with
                          | Some t => t
                          | None => "null"
                          end) l)
                ++ nl ++ indent ++ "]")
      end
  | VObject ps =>
      let inner := indent ++ "  " in
      match
        flat_map (fun kv =>
                    match SerializeJSONIndented (snd kv) inner with
                    | Some t => [QuoteJSONString (fst kv) ++ ": " ++ t]
                    | None => []
                    end) ps
      with
      | [] => Some "{}"
      | partial =>
          Some ("{" ++ nl ++ inner ++ join ("," ++ nl ++ inner) partial
                ++ nl ++ indent ++ "}")
      end
  end.

Definition JSON_stringify_indented (v : value) : option string :=
  SerializeJSONIndented v "".

(** The elements of a list under their indices, from [i] on. *)
Fixpoint indexed {A : Type} (i : nat) (l : list A) : list (string * A) :=
  match l with
  | [] => []
  | x :: l' => (Number_toString (Z.of_nat i), x) :: indexed (S i) l'
  end.

Fixpoint code_units (s : string) : list value :=
  match s with
  | "" => []
  | String c s' => VString (String c "") :: code_units s'
  end.

(** [Object.entries(v)] for a [v] that is neither [null] nor
    [undefined]. *)
Definition Object_entries (v : value) : list (string * value) :=
  match v with
  | VObject ps => ps
  | VArray l => indexed 0 l
  | VString s => indexed 0 (code_units s)
  | _ => []
  end.

Module Field.
Record t : Type := {
  name : string;
  value : string
}.
End Field.

(** Lines 107-120. *)
Definition _formatDiscordData (data : value) : list Field.t :=
  if negb (ToBoolean data) || negb (typeof data =? "object")
     || (Object_keys_length data =? 0)%nat
  then []
  else
    map (fun kv =>
           {| Field.name := fst kv;
              Field.value :=
                if typeof (snd kv) =? "object"
                then "```json" ++ nl
                     ++ ToString_result (JSON_stringify_indented (snd kv))
                     ++ nl ++ "```"
                else ToString (snd kv) |})
      (Object_entries data).

(* ================================================================== *)
(** ** Further notions *)

(** The three complaints of [send] (lines 35, 40 and 45). *)
Definition not_configured : string :=
  "AlertNow instance not properly configured. Use setDriver(), setWebhook(), and build() before sending.".

Definition title_required : string :=
  "AlertNow Error: Title is required and must be a string".

Definition message_required : string :=
  "AlertNow Error: Message is required and must be a string".

(** The outcome of a call that does nothing at all. *)
Definition silent : outcome :=
  {| returned := Return tt;
     before_return := [];
     after_return := [];
     unhandled := None |}.

(** The number of calls of [fetch] in a trace. *)
Fixpoint count_fetch (t : trace) : nat :=
  match t with
  | [] => 0
  | fetch _ :: t' => S (count_fetch t')
  | console_error _ :: t' => count_fetch t'
  end.

(** The number of calls of [console.error] in a trace. *)
Fixpoint count_console (t : trace) : nat :=
  match t with
  | [] => 0
  | fetch _ :: t' => count_console t'
  | console_error _ :: t' => S (count_console t')
  end.

(** [Object.keys(v).length] with the error of [Object.keys] on [null] and
    [undefined]. *)
Definition Object_keys_length_checked (v : value) : completion nat :=
  match v with
  | VUndefined => Throw (TypeError "Cannot convert undefined or null to object")
  | VNull => Throw (TypeError "Cannot convert undefined or null to object")
  | _ => Return (Object_keys_length v)
  end.

(** Lines 67-72 step by step: [&&] evaluates [Object.keys(data)] only when
    [data != null] holds. *)
Definition dataStr_steps (data : value) : completion string :=
  if not_nullish data then
    match Object_keys_length_checked data with
    | Throw e => Throw e
    | Return n =>
        if (0 <? n)%nat
        then Return ("data:```" ++ nl ++ nl
                     ++ ToString_result (JSON_stringify data) ++ "```" ++ nl)
        else Return ""
    end
  else Return "".

(** The builder of a concrete heap. *)
Definition fresh_builder : AlertNowBuilder :=
  {| builder_driver := None; builder_webhookUrl := None |}.

(* ================================================================== *)
(** * Facts about strings *)

Example toLowerCase_DISCORD : toLowerCase "DISCORD" = "discord".
Proof. reflexivity. Qed.

Example stringify_k_v :
  JSON_stringify (VObject [("k", VString "v")])
  = Some ("{" ++ dquote ++ "k" ++ dquote ++ ":" ++ dquote ++ "v" ++ dquote ++ "}").
Proof. reflexivity. Qed.

Example replace_first_only : replace "a" "b" "caa" = "cba".
Proof. reflexivity. Qed.

Example replace_dollar_patterns :
  replace "b" "[$$|$&|$`|$'|$1]" "abc" = "a[$|b|a|c|$1]c".
Proof. reflexivity. Qed.

Lemma append_assoc (a b c : string) : (a ++ b) ++ c = a ++ (b ++ c).
Proof. induction a as [|x a IH]; simpl; [reflexivity | now rewrite IH]. Qed.

Lemma append_nil_r (a : string) : a ++ "" = a.
Proof. induction a as [|x a IH]; simpl; [reflexivity | now rewrite IH]. Qed.

Lemma length_append (a b : string) :
  String.length (a ++ b) = String.length a + String.length b.
Proof. induction a as [|x a IH]; simpl; [reflexivity | now rewrite IH]. Qed.

Lemma prefix_append (p s : string) : prefix p (p ++ s) = true.
Proof.
  induction p as [|x p IH]; simpl.
  - now destruct s.
  - destruct (ascii_dec x x) as [_|ne]; [exact IH | now elim ne].
Qed.

Lemma drop_append (p s : string) : drop (String.length p) (p ++ s) = s.
Proof. induction p as [|x p IH]; simpl; [reflexivity | exact IH]. Qed.

Lemma prefix_split (p s : string) :
  prefix p s = true -> s = p ++ drop (String.length p) s.
Proof.
  revert s; induction p as [|x p IH]; intros s H; simpl.
  - reflexivity.
  - destruct s as [|y s]; simpl in H; [discriminate|].
    destruct (ascii_dec x y) as [->|]; [|discriminate].
    now rewrite <- (IH s H).
Qed.

Lemma split_first_eq (p s : string) :
  split_first p s =
  if prefix p s then Some ("", drop (String.length p) s)
  else match s with
       | "" => None
       | String c s' =>
           match split_first p s' with
           | Some (before, after) => Some (String c before, after)
           | None => None
           end
       end.
Proof. destruct s; reflexivity. Qed.

Lemma split_first_sound (p s a b : string) :
  split_first p s = Some (a, b) -> s = a ++ p ++ b.
Proof.
  revert a b; induction s as [|x s IH]; intros a b;
    rewrite split_first_eq;
    match goal with |- context [prefix ?u ?v] => destruct (prefix u v) eqn:E end.
  - intros [= <- <-]. exact (prefix_split _ _ E).
  - discriminate.
  - intros [= <- <-]. exact (prefix_split _ _ E).
  - destruct (split_first p s) as [[a' b']|]; [|discriminate].
    intros [= <- <-]. simpl. now rewrite <- (IH a' b' eq_refl).
Qed.

Lemma prefix_append_long (p x y : string) :
  String.length p <= String.length x -> prefix p (x ++ y) = prefix p x.
Proof.
  revert x; induction p as [|c p IH]; intros x L.
  - now destruct x, y.
  - destruct x as [|d x]; simpl in L; [lia|]. simpl.
    destruct (ascii_dec c d); [apply IH; lia | reflexivity].
Qed.

Lemma drop_append_long (n : nat) (x y : string) :
  n <= String.length x -> drop n (x ++ y) = drop n x ++ y.
Proof.
  revert x; induction n as [|n IH]; intros x L; simpl.
  - reflexivity.
  - destruct x as [|d x]; simpl in L; [lia|]. simpl. apply IH; lia.
Qed.

Lemma split_first_length (p s a b : string) :
  split_first p s = Some (a, b) -> String.length p <= String.length s.
Proof.
  intros H. rewrite (split_first_sound _ _ _ _ H), !length_append. lia.
Qed.

(** The first occurrence inside [x] is still the first one when text is
    appended to [x]. *)
Lemma split_first_append (p x y a b : string) :
  split_first p x = Some (a, b) ->
  split_first p (x ++ y) = Some (a, b ++ y).
Proof.
  revert a b; induction x as [|c x IH]; intros a b H;
    pose proof (split_first_length _ _ _ _ H) as L;
    rewrite split_first_eq in H; rewrite split_first_eq;
    rewrite (prefix_append_long _ _ y L);
    match goal with |- context [prefix ?u ?v] => destruct (prefix u v) end.
  - injection H as <- <-. now rewrite drop_append_long.
  - discriminate.
  - injection H as <- <-. now rewrite drop_append_long.
  - cbn [append].
    destruct (split_first p x) as [[a' b']|]; [|discriminate].
    injection H as <- <-. now rewrite (IH a' b' eq_refl).
Qed.

(** A string with an occurrence has a first one. *)
Lemma split_first_complete (p a b : string) :
  exists u v, split_first p (a ++ p ++ b) = Some (u, v).
Proof.
  induction a as [|c a [u [v IH]]].
  - change ("" ++ p ++ b) with (p ++ b).
    rewrite split_first_eq, prefix_append. eauto.
  - rewrite split_first_eq. cbn [append].
    destruct (prefix p (String c (a ++ p ++ b))); [eauto|].
    rewrite IH. eauto.
Qed.

Lemma dollar_free_append (a b : string) :
  dollar_free (a ++ b) = dollar_free a && dollar_free b.
Proof.
  induction a as [|c a IH]; simpl; [reflexivity|].
  now rewrite IH, andb_assoc.
Qed.

(** Text without dollar is copied as it is, and does not disturb what
    follows it. *)
Lemma GetSubstitution_dollar_free_append (m p f x y : string) :
  dollar_free x = true ->
  GetSubstitution m p f (x ++ y) = x ++ GetSubstitution m p f y.
Proof.
  induction x as [|c x IH]; intros H; [reflexivity|].
  simpl in H. apply andb_prop in H as [Hc Hx].
  cbn [append GetSubstitution].
  destruct (Ascii.eqb c "$"); [discriminate|].
  now rewrite (IH Hx).
Qed.

Lemma GetSubstitution_dollar_free (m p f x : string) :
  dollar_free x = true -> GetSubstitution m p f x = x.
Proof.
  intros H. rewrite <- (append_nil_r x) at 1.
  rewrite (GetSubstitution_dollar_free_append _ _ _ _ _ H).
  simpl. apply append_nil_r.
Qed.

(** A pattern that starts with a dollar is not found inside text without
    dollar. *)
Lemma split_first_skip (w a b : string) :
  dollar_free a = true ->
  split_first (String "$" w) (a ++ String "$" w ++ b) = Some (a, b).
Proof.
  intros H. induction a as [|c a IH].
  - change ("" ++ String "$" w ++ b) with (String "$" w ++ b).
    now rewrite split_first_eq, prefix_append, drop_append.
  - simpl in H. apply andb_prop in H as [Hc Ha].
    rewrite split_first_eq.
    change (String c a ++ String "$" w ++ b)
      with (String c (a ++ String "$" w ++ b)).
    cbn [prefix].
    destruct (ascii_dec "$" c) as [<-|_]; [discriminate|].
    now rewrite (IH Ha).
Qed.

(** ** The pieces of the template *)

Lemma DEF_TEMPLATE_pieces :
  DEF_TEMPLATE = "**" ++ "$title" ++ after_title.
Proof. reflexivity. Qed.

Lemma replace_title (title : string) :
  replace "$title" title DEF_TEMPLATE = "**" ++ title_text title ++ after_title.
Proof. reflexivity. Qed.

(** Where title and message hold no dollar, the first two replacements fill
    their own slots, and the third one its own. *)
Lemma render_dollar_free (title message segment : string) :
  dollar_free title = true ->
  dollar_free message = true ->
  render title message segment =
  "**" ++ title ++ before_message ++ message ++ before_data
  ++ GetSubstitution "$data"
       ("**" ++ title ++ before_message ++ message ++ before_data) nl segment
  ++ nl.
Proof.
  intros Ht Hm. unfold render.
  rewrite replace_title. unfold title_text.
  rewrite (GetSubstitution_dollar_free _ _ _ _ Ht).
  unfold after_title.
  replace ("**" ++ title ++ before_message ++ "$message" ++ before_data
           ++ "$data" ++ nl)
    with (("**" ++ title ++ before_message) ++ "$message" ++ before_data
          ++ "$data" ++ nl)
    by now rewrite !append_assoc.
  unfold replace at 2. rewrite split_first_skip.
  2:{ rewrite !dollar_free_append, Ht. reflexivity. }
  rewrite (GetSubstitution_dollar_free _ _ _ _ Hm).
  replace (("**" ++ title ++ before_message) ++ message ++ before_data
           ++ "$data" ++ nl)
    with (("**" ++ title ++ before_message ++ message ++ before_data)
          ++ "$data" ++ nl)
    by now rewrite !append_assoc.
  unfold replace. rewrite split_first_skip.
  2:{ rewrite !dollar_free_append, Ht, Hm. reflexivity. }
  now rewrite !append_assoc.
Qed.

(** On text without dollar the code meets the template of the
    specification. *)
Lemma render_meets_spec_template (title message segment : string) :
  dollar_free title = true ->
  dollar_free message = true ->
  dollar_free segment = true ->
  render title message segment = spec_template title message segment.
Proof.
  intros Ht Hm Hs. rewrite (render_dollar_free _ _ _ Ht Hm).
  rewrite (GetSubstitution_dollar_free _ _ _ _ Hs). reflexivity.
Qed.

(** ** Placeholders inside the text of a replacement *)

Lemma GetSubstitution_plain (m p f : string) (d : ascii) (t : string) :
  special d = false ->
  GetSubstitution m p f (String "$" (String d t))
  = "$" ++ GetSubstitution m p f (String d t).
Proof.
  unfold special. intros H.
  apply orb_false_elim in H as [H H4].
  apply orb_false_elim in H as [H H3].
  apply orb_false_elim in H as [H1 H2].
  cbn [GetSubstitution]. rewrite (Ascii.eqb_refl "$"), H1, H2, H3, H4.
  reflexivity.
Qed.

Section Placeholder.

(** A placeholder [$dw]: a dollar, then text without dollar that does not
    start a replacement pattern. *)
Variables (d : ascii) (w : string).
Hypothesis d_plain : special d = false.
Hypothesis dw_dollar_free : dollar_free (String d w) = true.
Variables (m p f : string).

Lemma GetSubstitution_placeholder (b : string) :
  GetSubstitution m p f (String "$" (String d w) ++ b)
  = String "$" (String d w) ++ GetSubstitution m p f b.
Proof.
  change (String "$" (String d w) ++ b)
    with (String "$" (String d (w ++ b))).
  rewrite (GetSubstitution_plain _ _ _ _ _ d_plain).
  change (String d (w ++ b)) with (String d w ++ b).
  now rewrite (GetSubstitution_dollar_free_append _ _ _ _ _ dw_dollar_free).
Qed.

(** A placeholder written in the replacement text is still there after the
    replacement patterns have been expanded. *)
Lemma GetSubstitution_keeps_bounded (n : nat) :
  forall a b, String.length a <= n ->
  exists a', GetSubstitution m p f (a ++ String "$" (String d w) ++ b)
             = a' ++ String "$" (String d w) ++ GetSubstitution m p f b.
Proof.
  induction n as [n IH] using lt_wf_ind. intros a b L.
  destruct a as [|c a].
  - exists "". apply GetSubstitution_placeholder.
  - destruct (Ascii.eqb c "$") eqn:Ec.
    + apply Ascii.eqb_eq in Ec as ->.
      destruct a as [|e a].
      * (* the dollar pairs with the dollar of the placeholder *)
        exists "".
        change ("$" ++ String "$" (String d w) ++ b)
          with (String "$" (String "$" (String d w ++ b))).
        cbn [GetSubstitution]. rewrite (Ascii.eqb_refl "$").
        now rewrite (GetSubstitution_dollar_free_append
                       _ _ _ _ _ dw_dollar_free).
      * simpl in L.
        destruct (special e) eqn:Ee.
        -- (* a replacement pattern: the rest is expanded on its own *)
           destruct (IH (String.length a)) with (a := a) (b := b)
             as [a' E]; [lia | lia |].
           change (String "$" (String e a) ++ String "$" (String d w) ++ b)
             with (String "$" (String e (a ++ String "$" (String d w) ++ b))).
           cbn [GetSubstitution]. rewrite (Ascii.eqb_refl "$"), E.
           unfold special in Ee.
           destruct (Ascii.eqb e "$");
             [eexists; now rewrite <- append_assoc|].
           destruct (Ascii.eqb e "&");
             [eexists; now rewrite <- append_assoc|].
           destruct (Ascii.eqb e "`");
             [eexists; now rewrite <- append_assoc|].
           destruct (Ascii.eqb e "'");
             [eexists; now rewrite <- append_assoc|].
           discriminate.
        -- (* a lone dollar *)
           destruct (IH (S (String.length a))) with (a := String e a) (b := b)
             as [a' E]; [lia | simpl; lia |].
           exists ("$" ++ a').
           change (String "$" (String e a) ++ String "$" (String d w) ++ b)
             with (String "$" (String e (a ++ String "$" (String d w) ++ b))).
           rewrite (GetSubstitution_plain _ _ _ _ _ Ee).
           change (String e (a ++ String "$" (String d w) ++ b))
             with (String e a ++ String "$" (String d w) ++ b).
           now rewrite E.
    + destruct (IH (String.length a)) with (a := a) (b := b)
        as [a' E]; [simpl in L; lia | lia |].
      exists (String c a').
      change (String c a ++ String "$" (String d w) ++ b)
        with (String c (a ++ String "$" (String d w) ++ b)).
      cbn [GetSubstitution]. rewrite Ec, E. reflexivity.
Qed.

Lemma GetSubstitution_keeps (a b : string) :
  exists a', GetSubstitution m p f (a ++ String "$" (String d w) ++ b)
             = a' ++ String "$" (String d w) ++ GetSubstitution m p f b.
Proof. exact (GetSubstitution_keeps_bounded _ a b (le_n _)). Qed.

End Placeholder.

(** An occurrence of [$data] does not overlap an occurrence of
    [$message]: it lies before it or after it. *)
Lemma data_beside_message (a b c e : string) :
  a ++ "$message" ++ b = c ++ "$data" ++ e ->
  (exists x, a = c ++ "$data" ++ x) \/ (exists x, b = x ++ "$data" ++ e).
Proof.
  revert c; induction a as [|y a IH]; intros c H.
  - right.
    do 8 (destruct c as [|? c]; [discriminate H|]).
    injection H as <- <- <- <- <- <- <- <- H. now exists c.
  - destruct c as [|z c].
    + left. injection H as -> H.
      do 4 (destruct a as [|? a]; [discriminate H|]).
      injection H as -> -> -> -> H. now exists a.
    + injection H as <- H.
      destruct (IH c H) as [[x ->]|[x ->]]; [left | right]; now exists x.
Qed.

(** ** The chain of replacements on a title that holds a placeholder *)

Lemma replace_at (pat repl s u v : string) :
  split_first pat s = Some (u, v) ->
  replace pat repl s = u ++ GetSubstitution pat u v repl ++ v.
Proof. intros H. unfold replace. now rewrite H. Qed.

Lemma append_inv_head (a x y : string) : a ++ x = a ++ y -> x = y.
Proof.
  induction a as [|c a IH]; simpl; intros H; [exact H|].
  injection H as H. exact (IH H).
Qed.

Lemma spec_template_pieces (title message dataBlock : string) :
  spec_template title message dataBlock =
  "**" ++ title ++ before_message ++ message ++ before_data ++ dataBlock ++ nl.
Proof. reflexivity. Qed.

(** The two stars that open the template are no start of a placeholder. *)
Lemma split_first_stars (w T : string) :
  split_first (String "$" w) ("**" ++ T) =
  match split_first (String "$" w) T with
  | Some (a, b) => Some ("**" ++ a, b)
  | None => None
  end.
Proof.
  change ("**" ++ T) with (String "*" (String "*" T)).
  rewrite split_first_eq. cbn [prefix].
  destruct (ascii_dec "$" "*"); [discriminate|].
  rewrite split_first_eq. cbn [prefix].
  destruct (ascii_dec "$" "*"); [discriminate|].
  destruct (split_first (String "$" w) T) as [[a b]|]; reflexivity.
Qed.

Lemma prefix_past (w P R : string) (c : ascii) :
  absent c w = true -> prefix w (P ++ String c R) = prefix w P.
Proof.
  revert P; induction w as [|d w IH]; intros P H.
  - now destruct P.
  - simpl in H. apply andb_prop in H as [Hd Hw].
    destruct P as [|k P]; cbn [append prefix].
    + destruct (ascii_dec d c) as [->|]; [|reflexivity].
      now rewrite Ascii.eqb_refl in Hd.
    + destruct (ascii_dec d k); [exact (IH P Hw) | reflexivity].
Qed.

(** A placeholder that does not occur in [P] does not occur across the
    end of [P] either, when the next character is none of its own. *)
Lemma split_first_past (w P R : string) (c : ascii) :
  absent c w = true ->
  split_first (String "$" w) P = None ->
  split_first (String "$" w) (P ++ String c R) =
  match split_first (String "$" w) (String c R) with
  | Some (a, b) => Some (P ++ a, b)
  | None => None
  end.
Proof.
  intros Hc. induction P as [|k P IH]; intros H.
  - change ("" ++ String c R) with (String c R).
    destruct (split_first (String "$" w) (String c R)) as [[a b]|];
      reflexivity.
  - rewrite split_first_eq in H.
    destruct (prefix (String "$" w) (String k P)) eqn:E; [discriminate|].
    destruct (split_first (String "$" w) P) as [[a b]|] eqn:E2;
      [discriminate|].
    change (String k P ++ String c R) with (String k (P ++ String c R)).
    rewrite split_first_eq.
    assert (E' : prefix (String "$" w) (String k (P ++ String c R)) = false).
    { cbn [prefix] in E |- *.
      destruct (ascii_dec "$" k); [|reflexivity].
      now rewrite prefix_past. }
    rewrite E', (IH eq_refl).
    now destruct (split_first (String "$" w) (String c R)) as [[a b]|].
Qed.

Lemma after_title_message :
  split_first "$message" after_title
  = Some (before_message, before_data ++ "$data" ++ nl).
Proof. reflexivity. Qed.

Lemma after_title_data :
  split_first "$data" after_title
  = Some (before_message ++ "$message" ++ before_data, nl).
Proof. reflexivity. Qed.

(** The second replacement: inside the title text when the placeholder
    occurs there, at the slot of the template otherwise. *)
Lemma second_in_title (title message u v : string) :
  split_first "$message" (title_text title) = Some (u, v) ->
  second title message =
  spec_template
    (u ++ GetSubstitution "$message" ("**" ++ u) (v ++ after_title) message
     ++ v)
    "$message" "$data".
Proof.
  intros H. unfold second. rewrite replace_title.
  pose proof (split_first_stars "message" (title_text title)) as H2.
  rewrite H in H2. apply (split_first_append _ _ after_title) in H2.
  rewrite append_assoc in H2. rewrite (replace_at _ _ _ _ _ H2).
  rewrite spec_template_pieces. unfold after_title.
  now rewrite !append_assoc.
Qed.

Lemma second_in_slot (title message : string) :
  split_first "$message" (title_text title) = None ->
  second title message =
  spec_template (title_text title)
    (GetSubstitution "$message" ("**" ++ title_text title ++ before_message)
       (before_data ++ "$data" ++ nl) message)
    "$data".
Proof.
  intros H. unfold second. rewrite replace_title.
  pose proof (split_first_stars "message" (title_text title)) as H2.
  rewrite H in H2.
  apply (split_first_past "message" _ (drop 1 after_title) "*" eq_refl) in H2.
  change (String "*" (drop 1 after_title)) with after_title in H2.
  rewrite after_title_message, append_assoc in H2.
  rewrite (replace_at _ _ _ _ _ H2).
  rewrite spec_template_pieces. now rewrite !append_assoc.
Qed.

(** The third replacement, on a text of the shape of the template. *)
Lemma third_in_title (T M segment x y : string) :
  split_first "$data" T = Some (x, y) ->
  replace "$data" segment (spec_template T M "$data") =
  spec_template
    (x ++ GetSubstitution "$data" ("**" ++ x)
            (y ++ before_message ++ M ++ before_data ++ "$data" ++ nl) segment
     ++ y)
    M "$data".
Proof.
  intros H. rewrite !spec_template_pieces.
  pose proof (split_first_stars "data" T) as H2. rewrite H in H2.
  apply (split_first_append _ _
           (before_message ++ M ++ before_data ++ "$data" ++ nl)) in H2.
  rewrite append_assoc in H2. rewrite (replace_at _ _ _ _ _ H2).
  now rewrite !append_assoc.
Qed.

Lemma third_in_slot (T segment : string) :
  split_first "$data" T = None ->
  replace "$data" segment (spec_template T "$message" "$data") =
  spec_template T "$message"
    (GetSubstitution "$data"
       ("**" ++ T ++ before_message ++ "$message" ++ before_data) nl segment).
Proof.
  intros H. rewrite !spec_template_pieces.
  pose proof (split_first_stars "data" T) as H2. rewrite H in H2.
  apply (split_first_past "data" _ (drop 1 after_title) "*" eq_refl) in H2.
  change (String "*" (drop 1 after_title)) with after_title in H2.
  rewrite after_title_data, append_assoc in H2.
  change (before_message ++ "$message" ++ before_data ++ "$data" ++ nl)
    with after_title.
  rewrite (replace_at _ _ _ _ _ H2). now rewrite !append_assoc.
Qed.

(** A title that holds [$message] takes the message, and the fenced block
    of the rendered text holds the placeholder. *)
Lemma title_takes_message (title message segment : string) :
  contains "$message" title ->
  exists u v,
    title_text title = u ++ "$message" ++ v /\
    second title message =
    spec_template
      (u ++ GetSubstitution "$message" ("**" ++ u) (v ++ after_title) message
       ++ v)
      "$message" "$data" /\
    exists X Y,
      render title message segment = spec_template X "$message" Y /\
      (Y = "$data" \/ exists p f, Y = GetSubstitution "$data" p f segment).
Proof.
  intros [a [b ->]].
  destruct (GetSubstitution_keeps "m" "essage" eq_refl eq_refl
              "$title" "**" after_title a b) as [a' E].
  destruct (split_first_complete "$message" a'
              (GetSubstitution "$title" "**" after_title b)) as [u [v Huv]].
  rewrite <- E in Huv. fold (title_text (a ++ "$message" ++ b)) in Huv.
  exists u, v. split; [exact (split_first_sound _ _ _ _ Huv)|].
  split; [exact (second_in_title _ message _ _ Huv)|].
  unfold render. fold (second (a ++ "$message" ++ b) message).
  rewrite (second_in_title _ message _ _ Huv).
  set (T := u ++ _ ++ v).
  destruct (split_first "$data" T) as [[x y]|] eqn:Hd.
  - rewrite (third_in_title _ _ segment _ _ Hd).
    eexists _, _. split; [reflexivity | left; reflexivity].
  - rewrite (third_in_slot _ segment Hd).
    eexists _, _. split; [reflexivity | right; eexists _, _; reflexivity].
Qed.

(** A title that holds [$data] takes the data segment, and the data slot
    of the rendered text holds the placeholder. *)
Lemma title_takes_data (title message segment : string) :
  contains "$data" title ->
  exists X M,
    render title message segment = spec_template X M "$data" /\
    (M = "$message" \/ exists p f, M = GetSubstitution "$message" p f message).
Proof.
  intros [a [b ->]].
  destruct (GetSubstitution_keeps "d" "ata" eq_refl eq_refl
              "$title" "**" after_title a b) as [a' E].
  fold (title_text (a ++ "$data" ++ b)) in E.
  unfold render. fold (second (a ++ "$data" ++ b) message).
  set (T := title_text (a ++ "$data" ++ b)) in *.
  set (Gb := GetSubstitution "$title" "**" after_title b) in *.
  destruct (split_first "$message" T) as [[u v]|] eqn:Hm.
  - rewrite (second_in_title _ message _ _ Hm).
    set (Gm := GetSubstitution "$message" _ _ message).
    pose proof (split_first_sound _ _ _ _ Hm) as HT. rewrite E in HT.
    assert (HX : exists A B, u ++ Gm ++ v = A ++ "$data" ++ B).
    { symmetry in HT.
      destruct (data_beside_message _ _ _ _ HT) as [[x ->]|[x ->]].
      - exists a', (x ++ Gm ++ v). now rewrite !append_assoc.
      - exists (u ++ Gm ++ x), Gb. now rewrite !append_assoc. }
    destruct HX as [A [B ->]].
    destruct (split_first_complete "$data" A B) as [x [y Hxy]].
    rewrite (third_in_title _ _ segment _ _ Hxy).
    eexists _, _. split; [reflexivity | left; reflexivity].
  - rewrite (second_in_slot _ message Hm). fold T.
    set (Gm := GetSubstitution "$message" _ _ message).
    destruct (split_first_complete "$data" a' Gb) as [x [y Hxy]].
    rewrite <- E in Hxy.
    rewrite (third_in_title _ _ segment _ _ Hxy).
    eexists _, _. split; [reflexivity | right; eexists _, _; reflexivity].
Qed.

(* ================================================================== *)
(** * Facts about [send] *)

(** The test of lines 39 and 44 fails exactly on the non-empty strings. *)
Lemma argument_test (v : value) :
  negb (ToBoolean v) || negb (typeof v =? "string") = negb (nonempty_string v).
Proof.
  destruct v as [| |b|n|s|l|ps]; simpl; try reflexivity.
  - now destruct b.
  - now destruct (Z.eqb n 0).
  - now rewrite orb_false_r.
Qed.

Lemma nonempty_string_inv (v : value) :
  nonempty_string v = true -> v = VString (string_of v).
Proof. destruct v; simpl; intros H; try discriminate; reflexivity. Qed.

Lemma default_empty_object_twice (data : value) :
  default_empty_object (default_empty_object data) = default_empty_object data.
Proof. now destruct data. Qed.

(** A configured sender with valid arguments starts exactly one exchange
    and returns; the rest happens in the background, where every error is
    handled. *)
Lemma send_valid (this : AlertNow) (title message data : value)
    (network : Request -> fetch_result) :
  configured this ->
  nonempty_string title = true ->
  nonempty_string message = true ->
  let req := request this (string_of title) (string_of message)
               (default_empty_object data) in
  run_send this title message data network =
  {| returned := Return tt;
     before_return := [fetch req];
     after_return := background (network req);
     unhandled := None |}.
Proof.
  intros [Hd Hw] Ht Hm req. unfold run_send, send.
  rewrite !argument_test, Ht, Hm, Hw, Hd. cbn [truthy field_is negb orb].
  rewrite String.eqb_refl. cbn [String.eqb negb orb].
  unfold _sendDiscord. rewrite default_empty_object_twice. fold req.
  unfold async, bind, emit, ret, catch, settle, try_catch, throw, background,
    reports, api_error.
  cbn [app fst snd].
  destruct (network req) as [response|e]; [destruct (ok response)|];
    reflexivity.
Qed.

(* ================================================================== *)
(** * Facts about the heap and the builder *)

Lemma length_update (r : ref) (o : object) (h : heap) :
  List.length (update r o h) = List.length h.
Proof.
  revert r; induction h as [|x h IH]; intros [|r]; simpl; auto.
Qed.

Lemma nth_error_update_same (r : ref) (o : object) (h : heap) :
  r < List.length h -> nth_error (update r o h) r = Some o.
Proof.
  revert r; induction h as [|x h IH]; intros [|r] L; simpl in *;
    try lia; [reflexivity | apply IH; lia].
Qed.

Lemma Forall_update (P : object -> Prop) (r : ref) (o : object) (h : heap) :
  Forall P h -> P o -> Forall P (update r o h).
Proof.
  intros H Ho; revert r; induction H as [|x h Hx H IH]; intros [|r]; simpl;
    auto.
Qed.

Lemma builder_at_bound (h : heap) (r : ref) (b : AlertNowBuilder) :
  builder_at h r = Some b -> r < List.length h.
Proof.
  unfold builder_at. intros H. apply nth_error_Some.
  destruct (nth_error h r); [discriminate | discriminate].
Qed.

Lemma builder_at_nth (h : heap) (r : ref) (b : AlertNowBuilder) :
  builder_at h r = Some b -> nth_error h r = Some (ObjBuilder b).
Proof.
  unfold builder_at. destruct (nth_error h r) as [[b'|a]|]; try discriminate.
  now intros [= ->].
Qed.

Lemma read_builder_at (h : heap) (r : ref) (b : AlertNowBuilder) :
  builder_at h r = Some b -> read_builder r h = (h, Return b).
Proof.
  intros H. unfold read_builder. now rewrite (builder_at_nth _ _ _ H).
Qed.

Lemma toLowerCase_nonempty (s : string) :
  toLowerCase s = "discord" -> (s =? "") = false.
Proof. destruct s; [discriminate | reflexivity]. Qed.

(** An accepted driver name is stored in lower case, and the builder itself
    is returned. *)
Lemma setDriver_accepts (this : ref) (s : string) (h : heap)
    (b : AlertNowBuilder) :
  toLowerCase s = "discord" ->
  builder_at h this = Some b ->
  setDriver this (VString s) h =
  (update this
     (ObjBuilder {| builder_driver := Some "discord";
                    builder_webhookUrl := builder_webhookUrl b |}) h,
   Return this).
Proof.
  intros Hs Hb. unfold setDriver. rewrite argument_test.
  cbn [nonempty_string string_of].
  rewrite (toLowerCase_nonempty _ Hs), Hs, String.eqb_refl. cbn [negb].
  unfold bind. rewrite (read_builder_at _ _ _ Hb). reflexivity.
Qed.

(** Every other argument makes [setDriver] throw before it touches the
    builder. *)
Lemma setDriver_rejects (this : ref) (v : value) (h : heap) :
  (forall s, v = VString s -> toLowerCase s <> "discord") ->
  setDriver this v h = (h, Throw (Error "Driver must be a valid string"))
  \/ setDriver this v h = (h, Throw (Error only_discord)).
Proof.
  intros H. unfold setDriver. rewrite argument_test.
  destruct (nonempty_string v) eqn:E; [|now left].
  right. cbn [negb].
  rewrite (nonempty_string_inv _ E) in H.
  specialize (H _ eq_refl). apply String.eqb_neq in H. now rewrite H.
Qed.

Lemma setWebhook_accepts (this : ref) (s : string) (h : heap)
    (b : AlertNowBuilder) :
  s <> "" ->
  builder_at h this = Some b ->
  setWebhook this (VString s) h =
  (update this
     (ObjBuilder {| builder_driver := builder_driver b;
                    builder_webhookUrl := Some s |}) h,
   Return this).
Proof.
  intros Hs Hb. unfold setWebhook. rewrite argument_test.
  cbn [nonempty_string]. apply String.eqb_neq in Hs. rewrite Hs.
  cbn [negb string_of]. unfold bind.
  rewrite (read_builder_at _ _ _ Hb). reflexivity.
Qed.

Lemma build_at (this : ref) (h : heap) (b : AlertNowBuilder) :
  builder_at h this = Some b ->
  build this h =
  if negb (truthy (builder_driver b)) then
    (h, Throw (Error "Driver must be set before building"))
  else if negb (truthy (builder_webhookUrl b)) then
    (h, Throw (Error "Webhook URL must be set before building"))
  else
    ((h ++ [ObjAlertNow {| driver := builder_driver b;
                           webhookUrl := builder_webhookUrl b |}])%list,
     Return (List.length h)).
Proof.
  intros Hb. unfold build, bind. rewrite (read_builder_at _ _ _ Hb).
  destruct (negb (truthy (builder_driver b))); [reflexivity|].
  destruct (negb (truthy (builder_webhookUrl b))); reflexivity.
Qed.

(** ** The invariant of the heap *)

Lemma heap_ok_builder (h : heap) (r : ref) (b : AlertNowBuilder) :
  heap_ok h -> builder_at h r = Some b -> builder_ok b.
Proof.
  intros H Hb. apply builder_at_nth in Hb. apply nth_error_In in Hb.
  exact (proj1 (Forall_forall _ _) H _ Hb).
Qed.

Lemma heap_ok_sender (h : heap) (r : ref) (a : AlertNow) :
  heap_ok h -> sender_at h r = Some a -> configured a.
Proof.
  unfold sender_at. intros H Ha.
  destruct (nth_error h r) as [[b|a']|] eqn:E; try discriminate.
  injection Ha as ->. apply nth_error_In in E.
  exact (proj1 (Forall_forall _ _) H _ E).
Qed.

Lemma heap_ok_new (h : heap) (o : object) :
  heap_ok h -> object_ok o -> heap_ok (h ++ [o])%list.
Proof.
  intros H Ho. apply Forall_app. split; [exact H | now constructor].
Qed.

Lemma builder_at_cases (h : heap) (r : ref) :
  (exists b, builder_at h r = Some b)
  \/ read_builder r h = (h, Throw (TypeError "not an AlertNowBuilder")).
Proof.
  unfold builder_at, read_builder.
  destruct (nth_error h r) as [[b|a]|]; eauto.
Qed.

Lemma exec_preserves (c : call) (h : heap) :
  heap_ok h -> heap_ok (fst (exec c h)).
Proof.
  intros H. destruct c as [|this v|this v|this]; cbn [exec].
  - apply heap_ok_new; [exact H|]. split; [now left | discriminate].
  - unfold setDriver. rewrite argument_test.
    destruct (nonempty_string v) eqn:Ev; [|exact H]. cbn [negb].
    destruct (toLowerCase (string_of v) =? "discord") eqn:El; [|exact H].
    cbn [negb]. apply String.eqb_eq in El. unfold bind.
    destruct (builder_at_cases h this) as [[b Hb]| ->]; [|exact H].
    rewrite (read_builder_at _ _ _ Hb). cbn.
    apply Forall_update; [exact H|].
    split; [right; now rewrite El | exact (proj2 (heap_ok_builder _ _ _ H Hb))].
  - unfold setWebhook. rewrite argument_test.
    destruct (nonempty_string v) eqn:Ev; [|exact H]. cbn [negb].
    unfold bind.
    destruct (builder_at_cases h this) as [[b Hb]| ->]; [|exact H].
    rewrite (read_builder_at _ _ _ Hb). cbn.
    apply Forall_update; [exact H|].
    split; [exact (proj1 (heap_ok_builder _ _ _ H Hb))|].
    cbn. destruct v; try discriminate. cbn in *.
    intros [= ->]. discriminate.
  - destruct (builder_at_cases h this) as [[b Hb]|E].
    + rewrite (build_at _ _ _ Hb).
      destruct (truthy (builder_driver b)) eqn:Ed; [|exact H].
      destruct (truthy (builder_webhookUrl b)) eqn:Ew; [|exact H].
      cbn. apply heap_ok_new; [exact H|].
      split; [|exact Ew]. cbn.
      destruct (proj1 (heap_ok_builder _ _ _ H Hb)) as [E|E];
        [rewrite E in Ed; discriminate | exact E].
    + unfold build, bind. rewrite E. exact H.
Qed.

Lemma run_preserves (cs : list call) (h : heap) :
  heap_ok h -> heap_ok (run cs h).
Proof.
  revert h; induction cs as [|c cs IH]; intros h H; [exact H|].
  apply IH, exec_preserves, H.
Qed.

Lemma reachable_ok (h : heap) : reachable h -> heap_ok h.
Proof. intros [cs <-]. apply run_preserves. constructor. Qed.

Lemma built_configured (this : AlertNow) : built this -> configured this.
Proof.
  intros [h [r [Hh Hr]]]. exact (heap_ok_sender _ _ _ (reachable_ok _ Hh) Hr).
Qed.

(** ** Matching a name whatever the case of its letters *)

Lemma lower_char_letter (c d : ascii) :
  In d (list_ascii_of_string "discord") ->
  Ascii.eqb (lower_char c) d = Ascii.eqb (fold_case c) (fold_case d).
Proof.
  intros H. cbn in H.
  destruct c as [[] [] [] [] [] [] [] []];
    repeat (destruct H as [<-|H]; [reflexivity|]); elim H.
Qed.

Lemma toLowerCase_match (s t : string) :
  (forall d, In d (list_ascii_of_string t) ->
             In d (list_ascii_of_string "discord")) ->
  toLowerCase s = t <-> same_ignoring_case s t = true.
Proof.
  revert t; induction s as [|a s IH]; intros [|b t] Ht; cbn;
    try (split; [discriminate | discriminate]); [tauto|].
  assert (Hb : In b (list_ascii_of_string "discord")) by (apply Ht; now left).
  rewrite <- (lower_char_letter a b Hb).
  specialize (IH t (fun d Hd => Ht d (or_intror Hd))).
  split.
  - intros [= <- E]. rewrite Ascii.eqb_refl. now apply IH.
  - intros H. apply andb_prop in H as [H1 H2].
    apply Ascii.eqb_eq in H1 as ->. f_equal. now apply IH.
Qed.

(** The test of line 137 accepts exactly the case-insensitive matches of
    [discord]. *)
Lemma toLowerCase_discord (s : string) :
  toLowerCase s = "discord" <-> same_ignoring_case s "discord" = true.
Proof. apply toLowerCase_match. auto. Qed.

(* ================================================================== *)
(** * The send pipeline *)

(** Without dollar in title and message, and without data, [send] posts the
    template of the specification once. *)
Lemma send_posts_template (this : AlertNow) (endpoint t m : string)
    (network : Request -> fetch_result) :
  driver this = Some "discord" ->
  webhookUrl this = Some endpoint ->
  endpoint <> "" -> t <> "" -> m <> "" ->
  dollar_free t = true ->
  dollar_free m = true ->
  before_return (run_send this (VString t) (VString m) VUndefined network)
  = [fetch (post endpoint (spec_template t m ""))].
Proof.
  intros Hd Hw He Ht Hm Dt Dm.
  apply String.eqb_neq in He, Ht, Hm.
  rewrite send_valid; cbn [nonempty_string negb]; try now rewrite ?Ht, ?Hm.
  2:{ split; [exact Hd | rewrite Hw; cbn; now rewrite He]. }
  cbn [before_return string_of default_empty_object].
  unfold request, post, content. rewrite Hw.
  change (dataStr (VObject [])) with "".
  now rewrite (render_meets_spec_template t m "" Dt Dm eq_refl).
Qed.

(** C1 (failing input).  [send("$message", "Body")] on a discord sender
    posts once, with the JSON header, but the text it posts has the message
    in the title line and the placeholder in the fenced block: it is not
    the template rendered with title ["$message"], message ["Body"] and an
    empty data segment. *)
Theorem send_title_holding_message_placeholder
    (network : Request -> fetch_result) :
  let rendered :=
    "**Body**" ++ nl ++ nl ++ "message:```" ++ nl ++ nl ++ "$message```"
    ++ nl ++ nl in
  before_return
    (run_send example_sender (VString "$message") (VString "Body") VUndefined
       network)
  = [fetch (post "https://discord.test/api/webhooks/1" rendered)]
  /\ rendered <> spec_template "$message" "Body" "".
Proof. split; [reflexivity | discriminate]. Qed.

(** C2.  Whatever the sender, when the title or the message is not a
    non-empty string (empty, [null], [undefined], a number, an object ...),
    [send] returns normally, reports one error on the console, leaves no
    task and no rejection behind and never calls [fetch]. *)
Theorem send_rejects_invalid_arguments (this : AlertNow)
    (title message data : value) (network : Request -> fetch_result) :
  nonempty_string title = false \/ nonempty_string message = false ->
  let o := run_send this title message data network in
  returned o = Return tt
  /\ (exists complaint, before_return o = [console_error [Text complaint]])
  /\ after_return o = []
  /\ unhandled o = None
  /\ forall r, ~ In (fetch r) (before_return o ++ after_return o)%list.
Proof.
  intros H o.
  assert (E : exists complaint, o = report complaint).
  { unfold o, run_send, send. rewrite !argument_test.
    destruct (negb (truthy (driver this)) || negb (truthy (webhookUrl this)));
      [eexists; reflexivity|].
    destruct (nonempty_string title); cbn [negb]; [|eexists; reflexivity].
    destruct H as [H|H]; [discriminate|]. rewrite H. cbn [negb].
    eexists; reflexivity. }
  destruct E as [complaint ->]. cbn.
  repeat split; eauto.
  intros r [F|[]]. discriminate.
Qed.

Lemma send_rejects_invalid_arguments_witness :
  let o := run_send example_sender VNull (VString "msg") VUndefined
             (answers 204 "") in
  returned o = Return tt
  /\ (exists complaint, before_return o = [console_error [Text complaint]])
  /\ after_return o = []
  /\ unhandled o = None
  /\ forall r, ~ In (fetch r) (before_return o ++ after_return o)%list.
Proof.
  apply (send_rejects_invalid_arguments example_sender VNull (VString "msg")
           VUndefined (answers 204 "")).
  left. reflexivity.
Defined.

Lemma ok_false (response : Response) :
  (status response < 200 \/ 299 < status response)%Z -> ok response = false.
Proof.
  intros H. unfold ok.
  destruct (Z.leb_spec 200 (status response)); [|reflexivity].
  destruct (Z.leb_spec (status response) 299); [lia | reflexivity].
Qed.

(** C3.  A sender made by the builder, a valid title and message, and a
    response whose status is not 2xx: [send] returns normally after it has
    started the exchange, and the error that carries the status and the
    response text is reported on the console afterwards, by the [catch] of
    [_sendDiscord] and by the [.catch] of [send]; nothing reaches the
    caller and no rejection is left unhandled. *)
Theorem send_reports_http_failure (this : AlertNow)
    (title message data : value) (network : Request -> fetch_result)
    (response : Response) :
  built this ->
  nonempty_string title = true ->
  nonempty_string message = true ->
  let req := request this (string_of title) (string_of message)
               (default_empty_object data) in
  network req = Responds response ->
  (status response < 200 \/ 299 < status response)%Z ->
  let o := run_send this title message data network in
  let error :=
    Error ("Discord API error: " ++ Number_toString (status response)
           ++ " - " ++ text response) in
  returned o = Return tt
  /\ before_return o = [fetch req]
  /\ after_return o =
     [console_error
        [Text "Failed to send notification to Discord:"; Thrown error];
      console_error [Text "AlertNow Error:"; Thrown error]]
  /\ unhandled o = None.
Proof.
  intros Hb Ht Hm req Hn Hs o error. unfold o.
  rewrite (send_valid this title message data network
             (built_configured _ Hb) Ht Hm).
  fold req. rewrite Hn.
  cbn [returned before_return after_return unhandled background].
  rewrite (ok_false _ Hs). repeat split; reflexivity.
Qed.

Lemma send_reports_http_failure_witness :
  let o := run_send example_sender (VString "Title") (VString "Body") VUndefined
             (answers 500 "boom") in
  let error := Error "Discord API error: 500 - boom" in
  returned o = Return tt
  /\ before_return o =
     [fetch (request example_sender "Title" "Body" (VObject []))]
  /\ after_return o =
     [console_error
        [Text "Failed to send notification to Discord:"; Thrown error];
      console_error [Text "AlertNow Error:"; Thrown error]]
  /\ unhandled o = None.
Proof.
  apply (send_reports_http_failure example_sender (VString "Title")
           (VString "Body") VUndefined (answers 500 "boom")
           {| status := 500; text := "boom" |}).
  - example_is_built.
  - reflexivity.
  - reflexivity.
  - reflexivity.
  - right. simpl. lia.
Defined.

(** ** The data segment *)

(** The segment built at lines 67-72: the data block of the specification
    around the serialized mapping, or nothing for a mapping without
    property. *)
Lemma dataStr_mapping (properties : list (string * value)) :
  dataStr (VObject properties) =
  match properties with
  | [] => ""
  | _ :: _ =>
      spec_dataBlock (ToString_result (JSON_stringify (VObject properties)))
  end.
Proof. destruct properties; reflexivity. Qed.

Lemma dataStr_omitted : dataStr (default_empty_object VUndefined) = "".
Proof. reflexivity. Qed.

(** Where no dollar is involved the rendered text ends with the data
    block. *)
Lemma content_meets_spec_template (t m : string)
    (properties : list (string * value)) :
  dollar_free t = true ->
  dollar_free m = true ->
  dollar_free (dataStr (VObject properties)) = true ->
  content t m (VObject properties) =
  spec_template t m
    match properties with
    | [] => ""
    | _ :: _ =>
        spec_dataBlock (ToString_result (JSON_stringify (VObject properties)))
    end.
Proof.
  intros Dt Dm Dd. unfold content.
  rewrite (render_meets_spec_template _ _ _ Dt Dm Dd).
  now rewrite dataStr_mapping.
Qed.

(** C7 (failing inputs).  With the title ["$data"] the data block of
    [{k: "v"}] is written inside the title line and the data segment of the
    rendered text is the bare placeholder.  With the data [{k: "$$"}],
    whose serialization is [{"k":"$$"}], the data block of the rendered
    text holds [{"k":"$"}].  In both cases the rendered text is not the
    template with the data block of the serialized mapping. *)
Theorem content_data_segment_failures :
  JSON_stringify (VObject [("k", VString "v")]) = Some (json_k "v")
  /\ content "$data" "Body" (VObject [("k", VString "v")])
     = "**" ++ spec_dataBlock (json_k "v") ++ "**" ++ nl ++ nl
       ++ "message:```" ++ nl ++ nl ++ "Body```" ++ nl ++ "$data" ++ nl
  /\ content "$data" "Body" (VObject [("k", VString "v")])
     <> spec_template "$data" "Body" (spec_dataBlock (json_k "v"))
  /\ JSON_stringify (VObject [("k", VString "$$")]) = Some (json_k "$$")
  /\ content "Title" "Body" (VObject [("k", VString "$$")])
     = spec_template "Title" "Body" (spec_dataBlock (json_k "$"))
  /\ content "Title" "Body" (VObject [("k", VString "$$")])
     <> spec_template "Title" "Body" (spec_dataBlock (json_k "$$")).
Proof.
  repeat split; try reflexivity; discriminate.
Qed.

(** For a sender made by the builder and a valid title and message,
    [send] with [null] as data behaves as with [{}] and as without data:
    it returns normally, the data segment is empty, it starts the one
    exchange whose text is rendered with the empty segment, nothing is
    reported before it returns, and nothing at all when the response is a
    success. *)
Theorem send_null_data (this : AlertNow) (title message : value)
    (network : Request -> fetch_result) :
  built this ->
  nonempty_string title = true ->
  nonempty_string message = true ->
  let o := run_send this title message VNull network in
  let rendered := render (string_of title) (string_of message) "" in
  o = run_send this title message (VObject []) network
  /\ o = run_send this title message VUndefined network
  /\ returned o = Return tt
  /\ dataStr VNull = ""
  /\ (exists endpoint,
        webhookUrl this = Some endpoint
        /\ before_return o = [fetch (post endpoint rendered)]
        /\ forall response,
             network (post endpoint rendered) = Responds response ->
             ok response = true -> after_return o = []).
Proof.
  intros Hb Ht Hm o rendered.
  pose proof (built_configured _ Hb) as Hc.
  unfold o. rewrite !(send_valid this title message _ network Hc Ht Hm).
  cbn [default_empty_object returned before_return after_return].
  assert (E : forall data, dataStr data = "" ->
                request this (string_of title) (string_of message) data
                = request this (string_of title) (string_of message) VNull).
  { intros data Hd. unfold request, content. rewrite Hd. reflexivity. }
  rewrite (E (VObject []) eq_refl).
  repeat split.
  destruct Hc as [_ Hw].
  destruct (webhookUrl this) as [endpoint|] eqn:Eu; [|discriminate].
  exists endpoint.
  assert (R : request this (string_of title) (string_of message) VNull
              = post endpoint rendered).
  { unfold request, post, content. rewrite Eu. reflexivity. }
  rewrite R. repeat split.
  intros response Hn Hok. unfold background. now rewrite Hn, Hok.
Qed.

Lemma send_null_data_witness :
  let o := run_send example_sender (VString "Title") (VString "Body") VNull
             (answers 204 "") in
  let rendered := render "Title" "Body" "" in
  o = run_send example_sender (VString "Title") (VString "Body") (VObject [])
        (answers 204 "")
  /\ o = run_send example_sender (VString "Title") (VString "Body") VUndefined
           (answers 204 "")
  /\ returned o = Return tt
  /\ dataStr VNull = ""
  /\ (exists endpoint,
        webhookUrl example_sender = Some endpoint
        /\ before_return o = [fetch (post endpoint rendered)]
        /\ after_return o = []).
Proof.
  destruct (send_null_data example_sender (VString "Title") (VString "Body")
              (answers 204 ""))
    as [H1 [H2 [H3 [H4 [endpoint [H5 [H6 H7]]]]]]].
  - example_is_built.
  - reflexivity.
  - reflexivity.
  - repeat (split; [assumption|]).
    exists endpoint. split; [exact H5|]. split; [exact H6|].
    apply (H7 {| status := 204; text := "" |}); reflexivity.
Defined.

(** The test [data != null] keeps lines 67-72 from throwing: they always
    give the segment [dataStr]. *)
Lemma dataStr_steps_total (data : value) :
  dataStr_steps data = Return (dataStr data).
Proof.
  unfold dataStr_steps, dataStr.
  destruct data as [| |b|n|s|l|ps]; cbn [not_nullish andb];
    try reflexivity; cbn [Object_keys_length_checked];
    match goal with |- context [(0 <? ?k)%nat] => destruct (0 <? k)%nat end;
    reflexivity.
Qed.

(** Without dollar in title and message, the text sent with [null] as data
    is the template with an empty data segment. *)
Lemma send_null_posts_template (this : AlertNow) (t m : string)
    (network : Request -> fetch_result) :
  built this ->
  t <> "" -> m <> "" ->
  dollar_free t = true ->
  dollar_free m = true ->
  exists endpoint,
    webhookUrl this = Some endpoint /\
    before_return (run_send this (VString t) (VString m) VNull network)
    = [fetch (post endpoint (spec_template t m ""))].
Proof.
  intros Hb Ht Hm Dt Dm.
  pose proof (built_configured _ Hb) as Hc.
  apply String.eqb_neq in Ht, Hm.
  rewrite (send_valid this (VString t) (VString m) VNull network Hc);
    cbn [nonempty_string negb]; try now rewrite ?Ht, ?Hm.
  destruct Hc as [_ Hw].
  destruct (webhookUrl this) as [endpoint|] eqn:Eu; [|discriminate].
  exists endpoint. split; [reflexivity|].
  cbn [before_return string_of default_empty_object].
  unfold request, post, content. rewrite Eu.
  change (dataStr VNull) with "".
  now rewrite (render_meets_spec_template t m "" Dt Dm eq_refl).
Qed.

(** C10 (failing input).  [send("$data", "Body", null)] on a discord
    sender does not throw, reports nothing before it returns, starts one
    request and has the same outcome as with [{}]; lines 67-72 build the
    empty segment without the TypeError of [Object.keys(null)].  But the
    third replacement of line 74 takes the [$data] of the title, so the
    text posted has an empty title line and the placeholder itself in the
    data slot: the data segment of the rendered body is not empty. *)
Theorem send_null_data_title_placeholder (network : Request -> fetch_result) :
  let o := run_send example_sender (VString "$data") (VString "Body") VNull
             network in
  returned o = Return tt
  /\ o = run_send example_sender (VString "$data") (VString "Body")
           (VObject []) network
  /\ dataStr_steps VNull = Return ""
  /\ before_return o
     = [fetch (post "https://discord.test/api/webhooks/1"
                 (spec_template "" "Body" "$data"))]
  /\ spec_template "" "Body" "$data" <> spec_template "$data" "Body" "".
Proof.
  repeat split. discriminate.
Qed.

(** ** Placeholders in the title *)


(** Two ways to cut a string: the shorter end is an end of the longer
    one. *)
Lemma append_suffix (X Y S T : string) :
  X ++ S = Y ++ T ->
  String.length T <= String.length S ->
  exists Z, S = Z ++ T.
Proof.
  revert Y; induction X as [|c X IH]; intros Y H L.
  - exists Y. exact H.
  - destruct Y as [|d Y].
    + apply (f_equal String.length) in H. cbn in H.
      rewrite length_append in H. lia.
    + injection H as _ H. exact (IH Y H L).
Qed.

(** The text that slot-wise substitution gives for the data of a call ends
    with an empty line: the segment is empty or ends with a line break. *)
Lemma spec_template_ends (t m : string) (data : value) :
  exists Y, spec_template t m (dataStr data) = Y ++ nl ++ nl.
Proof.
  rewrite spec_template_pieces. unfold dataStr, before_data.
  destruct (not_nullish data && (0 <? Object_keys_length data)%nat).
  - eexists ("**" ++ t ++ before_message ++ m ++ "```" ++ nl ++ "data:```"
             ++ nl ++ nl ++ ToString_result (JSON_stringify data) ++ "```").
    now rewrite !append_assoc.
  - exists ("**" ++ t ++ before_message ++ m ++ "```").
    now rewrite !append_assoc.
Qed.

(** A title that holds [$data]: the rendered text is not the one of
    slot-wise substitution, whatever the message and the data. *)
Lemma data_title_differs (title message : string) (data : value) :
  contains "$data" title ->
  content title message data <> spec_template title message (dataStr data).
Proof.
  intros H E. unfold content in E.
  destruct (title_takes_data title message (dataStr data) H) as [X [M [R _]]].
  rewrite R, spec_template_pieces in E.
  destruct (spec_template_ends title message data) as [Y EY].
  rewrite EY in E.
  replace ("**" ++ X ++ before_message ++ M ++ before_data ++ "$data" ++ nl)
    with (("**" ++ X ++ before_message ++ M ++ before_data) ++ "$data" ++ nl)
    in E by now rewrite !append_assoc.
  destruct (append_suffix _ _ _ _ E) as [Z HZ]; [cbn; lia|].
  do 5 (destruct Z as [|? Z]; [discriminate HZ|]).
  apply (f_equal String.length) in HZ.
  rewrite !length_append in HZ. unfold nl in HZ. simpl in HZ. lia.
Qed.

(** A placeholder is not found inside a prefix without dollar. *)
Lemma split_first_after (w P R : string) :
  dollar_free P = true ->
  split_first (String "$" w) (P ++ R) =
  match split_first (String "$" w) R with
  | Some (u, v) => Some (P ++ u, v)
  | None => None
  end.
Proof.
  intros H. induction P as [|c P IH].
  - change ("" ++ R) with R.
    now destruct (split_first (String "$" w) R) as [[u v]|].
  - simpl in H. apply andb_prop in H as [Hc HP].
    change (String c P ++ R) with (String c (P ++ R)).
    rewrite split_first_eq. cbn [prefix].
    destruct (ascii_dec "$" c) as [<-|_]; [discriminate|].
    rewrite (IH HP).
    now destruct (split_first (String "$" w) R) as [[u v]|].
Qed.

Lemma replace_after (w repl P R : string) :
  dollar_free P = true ->
  exists R', replace (String "$" w) repl (P ++ R) = P ++ R'.
Proof.
  intros H. unfold replace. rewrite (split_first_after _ _ _ H).
  destruct (split_first (String "$" w) R) as [[u v]|].
  - eexists. now rewrite append_assoc.
  - now exists R.
Qed.

(** A title whose first dollar opens [$message], and a message without
    dollar: the message stands where slot-wise substitution has the
    dollar of the title. *)
Lemma message_title_differs (a b message segment : string) :
  dollar_free a = true ->
  message <> "" ->
  dollar_free message = true ->
  render (a ++ "$message" ++ b) message segment
  <> spec_template (a ++ "$message" ++ b) message segment.
Proof.
  intros Da Nm Dm E. unfold render in E.
  rewrite replace_title in E. unfold title_text in E.
  rewrite (GetSubstitution_dollar_free_append _ _ _ _ _ Da) in E.
  rewrite (GetSubstitution_placeholder "m" "essage" eq_refl eq_refl) in E.
  set (Gb := GetSubstitution "$title" "**" after_title b) in E.
  replace ("**" ++ (a ++ "$message" ++ Gb) ++ after_title)
    with (("**" ++ a) ++ "$message" ++ Gb ++ after_title)
    in E by now rewrite !append_assoc.
  assert (Dp : dollar_free ("**" ++ a) = true)
    by now rewrite dollar_free_append, Da.
  unfold replace at 2 in E. rewrite (split_first_skip _ _ _ Dp) in E.
  rewrite (GetSubstitution_dollar_free _ _ _ _ Dm) in E.
  replace (("**" ++ a) ++ message ++ Gb ++ after_title)
    with (("**" ++ a ++ message) ++ Gb ++ after_title)
    in E by now rewrite !append_assoc.
  assert (Dq : dollar_free ("**" ++ a ++ message) = true)
    by now rewrite !dollar_free_append, Da, Dm.
  destruct (replace_after "data" segment _ (Gb ++ after_title) Dq) as [R' ER].
  rewrite ER in E. unfold spec_template in E.
  rewrite !append_assoc in E.
  apply append_inv_head in E. apply append_inv_head in E.
  destruct message as [|c message]; [now elim Nm|].
  injection E as -> _. discriminate Dm.
Qed.



(* ================================================================== *)
(** * The builder *)

Lemma sender_at_new (h : heap) (a : AlertNow) :
  sender_at (h ++ [ObjAlertNow a])%list (List.length h) = Some a.
Proof.
  unfold sender_at. rewrite nth_error_app2, Nat.sub_diag; [reflexivity | lia].
Qed.

Lemma sender_at_old (h : heap) (o : object) (r : ref) :
  r < List.length h -> sender_at (h ++ [o])%list r = sender_at h r.
Proof. intros L. unfold sender_at. now rewrite nth_error_app1. Qed.

Lemma builder_at_old (h : heap) (o : object) (r : ref) (b : AlertNowBuilder) :
  builder_at h r = Some b -> builder_at (h ++ [o])%list r = Some b.
Proof.
  intros H. pose proof (builder_at_bound _ _ _ H) as L.
  unfold builder_at in *. now rewrite nth_error_app1.
Qed.

Lemma builder_at_update (h : heap) (r : ref) (b b' : AlertNowBuilder) :
  builder_at h r = Some b ->
  builder_at (update r (ObjBuilder b') h) r = Some b'.
Proof.
  intros H. unfold builder_at.
  now rewrite (nth_error_update_same _ _ _ (builder_at_bound _ _ _ H)).
Qed.

(** C8.  In every heap that a client can reach, a sender has the driver
    ["discord"] and a non-empty webhook URL.  So the test of line 34 fails
    on it, and [send] with a valid title and message returns after it has
    started exactly one exchange, without any report before. *)
Theorem built_sender_dispatches (h : heap) (r : ref) (this : AlertNow) :
  reachable h ->
  sender_at h r = Some this ->
  driver this = Some "discord"
  /\ (exists endpoint, webhookUrl this = Some endpoint /\ endpoint <> "")
  /\ negb (truthy (driver this)) || negb (truthy (webhookUrl this)) = false
  /\ forall title message data network,
       nonempty_string title = true ->
       nonempty_string message = true ->
       let o := run_send this title message data network in
       returned o = Return tt
       /\ before_return o =
          [fetch (request this (string_of title) (string_of message)
                    (default_empty_object data))].
Proof.
  intros Hh Hr.
  pose proof (heap_ok_sender _ _ _ (reachable_ok _ Hh) Hr) as Hc.
  destruct (Hc) as [Hd Hw]. split; [exact Hd|]. split.
  { destruct (webhookUrl this) as [endpoint|]; [|discriminate].
    exists endpoint. split; [reflexivity|]. intros ->. discriminate. }
  split; [now rewrite Hd, Hw|].
  intros title message data network Ht Hm o. unfold o.
  rewrite (send_valid this title message data network Hc Ht Hm).
  split; reflexivity.
Qed.

Lemma built_sender_dispatches_witness :
  driver example_sender = Some "discord"
  /\ (exists endpoint,
        webhookUrl example_sender = Some endpoint /\ endpoint <> "")
  /\ negb (truthy (driver example_sender))
     || negb (truthy (webhookUrl example_sender)) = false
  /\ (let o := run_send example_sender (VString "Title") (VString "Body")
                 VUndefined (answers 204 "") in
      returned o = Return tt
      /\ before_return o =
         [fetch (request example_sender "Title" "Body" (VObject []))]).
Proof.
  destruct (built_sender_dispatches (run example_program []) 1 example_sender)
    as [Hd [Hw [Hc Hs]]].
  - exists example_program. reflexivity.
  - reflexivity.
  - split; [exact Hd|]. split; [exact Hw|]. split; [exact Hc|].
    apply (Hs (VString "Title") (VString "Body") VUndefined (answers 204 ""));
      reflexivity.
Defined.

(** C5.  An argument that is not a case-insensitive match of ["discord"]
    (the empty string, a value that is not a string, another name) makes
    [setDriver] throw an [Error], and the heap, the builder with it, is as
    it was. *)
Theorem setDriver_rejects_unsupported (this : ref) (v : value) (h : heap) :
  supported_platform v = false ->
  throws (setDriver this v h) /\ fst (setDriver this v h) = h.
Proof.
  intros H.
  assert (N : forall s, v = VString s -> toLowerCase s <> "discord").
  { intros s -> E. apply toLowerCase_discord in E. cbn in H. congruence. }
  destruct (setDriver_rejects this v h N) as [-> | ->];
    (split; [eexists; reflexivity | reflexivity]).
Qed.

Lemma setDriver_rejects_unsupported_witness :
  throws (setDriver 0 (VString "slack") (run [CallNew] []))
  /\ fst (setDriver 0 (VString "slack") (run [CallNew] [])) = run [CallNew] [].
Proof.
  apply (setDriver_rejects_unsupported 0 (VString "slack") (run [CallNew] [])).
  reflexivity.
Defined.

(** C6.  [setDriver] accepts a name whatever the case of its letters and
    stores it in lower case: the call with an accepted name has the same
    result and leaves the same heap as the call with ["discord"], the
    stored driver is the lower-case name, and whatever the client does next
    (set the webhook, build, send) goes the same way. *)
Theorem setDriver_ignores_case (this : ref) (p : string) (h : heap) :
  supported_platform (VString p) = true ->
  setDriver this (VString p) h = setDriver this (VString "discord") h
  /\ (forall b,
        builder_at h this = Some b ->
        builder_at (fst (setDriver this (VString p) h)) this =
        Some {| builder_driver := Some (toLowerCase p);
                builder_webhookUrl := builder_webhookUrl b |})
  /\ toLowerCase p = "discord"
  /\ forall (A : Type) (next : ref -> M heap A),
       (r <- setDriver this (VString p) ;; next r) h
       = (r <- setDriver this (VString "discord") ;; next r) h.
Proof.
  intros H. cbn in H. apply toLowerCase_discord in H.
  assert (E : setDriver this (VString p) h
              = setDriver this (VString "discord") h).
  { unfold setDriver. rewrite !argument_test. cbn [nonempty_string string_of].
    rewrite (toLowerCase_nonempty _ H), H. reflexivity. }
  split; [exact E|]. split; [|split; [exact H|]].
  - intros b Hb. rewrite (setDriver_accepts _ _ _ _ H Hb). cbn [fst].
    rewrite H. exact (builder_at_update _ _ _ _ Hb).
  - intros A next. unfold bind. now rewrite E.
Qed.

Lemma setDriver_ignores_case_witness :
  setDriver 0 (VString "DISCORD") (run [CallNew] [])
  = setDriver 0 (VString "discord") (run [CallNew] [])
  /\ builder_at (fst (setDriver 0 (VString "DISCORD") (run [CallNew] []))) 0
     = Some {| builder_driver := Some "discord"; builder_webhookUrl := None |}
  /\ toLowerCase "DISCORD" = "discord"
  /\ forall (A : Type) (next : ref -> M heap A),
       (r <- setDriver 0 (VString "DISCORD") ;; next r) (run [CallNew] [])
       = (r <- setDriver 0 (VString "discord") ;; next r) (run [CallNew] []).
Proof.
  destruct (setDriver_ignores_case 0 "DISCORD" (run [CallNew] []))
    as [Hs [Hb [Hl Hn]]].
  - reflexivity.
  - split; [exact Hs|]. split; [|split; [exact Hl | exact Hn]].
    apply (Hb {| builder_driver := None; builder_webhookUrl := None |}).
    reflexivity.
Defined.

(** C4.  On a builder, [setDriver] with a supported name, then
    [setWebhook] with a non-empty string, then [build] succeed and return a
    new sender with the driver ["discord"] and that URL.  In a reachable
    heap [build] throws exactly when the driver or the webhook URL of the
    builder is still [null].  After a [build] that succeeded, a second one
    on the same builder succeeds too: the two senders are distinct objects
    with the same fields, and the builder is as it was. *)
Theorem build_after_setters (h : heap) (this : ref) (b : AlertNowBuilder) :
  builder_at h this = Some b ->
  (forall p e,
     supported_platform (VString p) = true ->
     e <> "" ->
     exists h',
       (r1 <- setDriver this (VString p) ;;
        r2 <- setWebhook r1 (VString e) ;;
        build r2) h
       = (h', Return (List.length h))
       /\ sender_at h' (List.length h)
          = Some {| driver := Some "discord"; webhookUrl := Some e |})
  /\ (reachable h ->
      (throws (build this h)
       <-> builder_driver b = None \/ builder_webhookUrl b = None))
  /\ (forall h1 r1,
        build this h = (h1, Return r1) ->
        exists h2 r2 a,
          build this h1 = (h2, Return r2)
          /\ r1 <> r2
          /\ sender_at h2 r1 = Some a
          /\ sender_at h2 r2 = Some a
          /\ driver a = builder_driver b
          /\ webhookUrl a = builder_webhookUrl b
          /\ builder_at h2 this = Some b).
Proof.
  intros Hb. split; [|split].
  - intros p e Hp He. cbn in Hp. apply toLowerCase_discord in Hp.
    unfold bind at 1. rewrite (setDriver_accepts _ _ _ _ Hp Hb).
    set (h1 := update this _ h).
    assert (Hb1 : builder_at h1 this
                  = Some {| builder_driver := Some "discord";
                            builder_webhookUrl := builder_webhookUrl b |})
      by exact (builder_at_update _ _ _ _ Hb).
    unfold bind at 1. rewrite (setWebhook_accepts _ _ _ _ He Hb1).
    set (h2 := update this _ h1).
    assert (Hb2 : builder_at h2 this
                  = Some {| builder_driver := Some "discord";
                            builder_webhookUrl := Some e |})
      by exact (builder_at_update _ _ _ _ Hb1).
    rewrite (build_at _ _ _ Hb2). cbn [builder_driver builder_webhookUrl truthy].
    apply String.eqb_neq in He. rewrite He. cbn [String.eqb negb].
    assert (L : List.length h2 = List.length h)
      by (unfold h2, h1; now rewrite !length_update).
    rewrite L. eexists. split; [reflexivity|].
    rewrite <- L. apply sender_at_new.
  - intros Hh. rewrite (build_at _ _ _ Hb).
    destruct (heap_ok_builder _ _ _ (reachable_ok _ Hh) Hb) as [Hd Hw].
    destruct (builder_driver b) as [d|] eqn:Ed.
    + destruct Hd as [Hd|Hd]; [discriminate|]. injection Hd as ->.
      cbn [truthy String.eqb negb].
      destruct (builder_webhookUrl b) as [w|] eqn:Ew.
      * cbn [truthy].
        destruct (String.eqb_spec w "") as [->|Nw]; [now elim Hw|].
        cbn [negb]. split.
        -- intros [message E]. discriminate E.
        -- intros [E|E]; discriminate E.
      * cbn. split; [now right | intros _; eexists; reflexivity].
    + cbn. split; [now left | intros _; eexists; reflexivity].
  - intros h1 r1. rewrite (build_at _ _ _ Hb).
    destruct (negb (truthy (builder_driver b))) eqn:Td; [discriminate|].
    destruct (negb (truthy (builder_webhookUrl b))) eqn:Tw; [discriminate|].
    intros [= <- <-].
    set (a := {| driver := builder_driver b;
                 webhookUrl := builder_webhookUrl b |}).
    pose proof (builder_at_old h (ObjAlertNow a) this b Hb) as Hb1.
    rewrite (build_at _ _ _ Hb1), Td, Tw. fold a.
    eexists _, _, a. split; [reflexivity|].
    rewrite length_app. cbn [List.length].
    split; [lia|]. split; [|split; [|split; [|split]]].
    + rewrite sender_at_old by (rewrite length_app; cbn; lia).
      apply sender_at_new.
    + replace (List.length h + 1) with (List.length (h ++ [ObjAlertNow a])%list)
        by (rewrite length_app; reflexivity).
      apply sender_at_new.
    + reflexivity.
    + reflexivity.
    + now apply builder_at_old.
Qed.

Lemma build_after_setters_witness :
  let h := run [CallNew;
                CallSetDriver 0 (VString "discord");
                CallSetWebhook 0 (VString "https://discord.test/api/webhooks/1")]
             [] in
  (exists h',
     (r1 <- setDriver 0 (VString "DisCord") ;;
      r2 <- setWebhook r1 (VString "https://discord.test/api/webhooks/2") ;;
      build r2) h
     = (h', Return 1)
     /\ sender_at h' 1
        = Some {| driver := Some "discord";
                  webhookUrl := Some "https://discord.test/api/webhooks/2" |})
  /\ (throws (build 0 h) <-> Some "discord" = None \/ Some "https://discord.test/api/webhooks/1" = None)
  /\ (exists h2 r2 a,
        build 0 (fst (build 0 h)) = (h2, Return r2)
        /\ 1 <> r2
        /\ sender_at h2 1 = Some a
        /\ sender_at h2 r2 = Some a
        /\ driver a = Some "discord"
        /\ webhookUrl a = Some "https://discord.test/api/webhooks/1"
        /\ builder_at h2 0
           = Some {| builder_driver := Some "discord";
                     builder_webhookUrl :=
                       Some "https://discord.test/api/webhooks/1" |}).
Proof.
  intros h.
  destruct (build_after_setters h 0
              {| builder_driver := Some "discord";
                 builder_webhookUrl :=
                   Some "https://discord.test/api/webhooks/1" |}
              eq_refl) as [H1 [H2 H3]].
  split; [|split].
  - apply (H1 "DisCord" "https://discord.test/api/webhooks/2");
      [reflexivity | discriminate].
  - apply H2.
    exists [CallNew;
            CallSetDriver 0 (VString "discord");
            CallSetWebhook 0 (VString "https://discord.test/api/webhooks/1")].
    reflexivity.
  - apply (H3 (fst (build 0 h)) 1). reflexivity.
Defined.

(* ================================================================== *)
(** * Further properties of [send] *)

(** The outcome of [send] in each of its five cases. *)
Lemma run_send_cases (this : AlertNow) (title message data : value)
    (network : Request -> fetch_result) :
  run_send this title message data network =
  if negb (truthy (driver this)) || negb (truthy (webhookUrl this)) then
    report not_configured
  else if negb (nonempty_string title) then report title_required
  else if negb (nonempty_string message) then report message_required
  else if field_is (driver this) "discord" then
    let req := request this (string_of title) (string_of message)
                 (default_empty_object data) in
    {| returned := Return tt;
       before_return := [fetch req];
       after_return := background (network req);
       unhandled := None |}
  else silent.
Proof.
  unfold run_send, send. rewrite !argument_test.
  destruct (negb (truthy (driver this)) || negb (truthy (webhookUrl this)));
    [reflexivity|].
  destruct (negb (nonempty_string title)); [reflexivity|].
  destruct (negb (nonempty_string message)); [reflexivity|].
  destruct (field_is (driver this) "discord"); [|reflexivity].
  unfold _sendDiscord. rewrite default_empty_object_twice.
  set (req := request _ _ _ _).
  unfold async, bind, emit, ret, catch, settle, try_catch, throw, background,
    reports, api_error.
  cbn [app fst snd].
  destruct (network req) as [response|e]; [destruct (ok response)|];
    reflexivity.
Qed.

(** X1.  The three guards of [send] are tried in order: a sender without
    driver or URL complains about its configuration whatever the
    arguments; otherwise an invalid title is reported, also when the
    message is invalid too; otherwise an invalid message is reported. *)
Theorem send_complaint_order (this : AlertNow) (title message data : value)
    (network : Request -> fetch_result) :
  (truthy (driver this) && truthy (webhookUrl this) = false ->
   run_send this title message data network = report not_configured)
  /\ (truthy (driver this) && truthy (webhookUrl this) = true ->
      nonempty_string title = false ->
      run_send this title message data network = report title_required)
  /\ (truthy (driver this) && truthy (webhookUrl this) = true ->
      nonempty_string title = true ->
      nonempty_string message = false ->
      run_send this title message data network = report message_required).
Proof.
  rewrite run_send_cases.
  destruct (truthy (driver this)), (truthy (webhookUrl this));
    cbn [andb orb negb]; (split; [|split]); try discriminate;
    try (intros; reflexivity).
  - intros _ ->. reflexivity.
  - intros _ -> ->. reflexivity.
Qed.

Lemma send_complaint_order_witness :
  run_send {| driver := None; webhookUrl := Some "u" |} (VString "")
    (VString "") VUndefined (answers 204 "")
  = report not_configured
  /\ run_send example_sender (VNumber 7) VNull VUndefined (answers 204 "")
     = report title_required
  /\ run_send example_sender (VString "Title") (VString "") VUndefined
       (answers 204 "")
     = report message_required.
Proof.
  split; [|split].
  - apply (proj1 (send_complaint_order
                    {| driver := None; webhookUrl := Some "u" |} (VString "")
                    (VString "") VUndefined (answers 204 ""))).
    reflexivity.
  - apply (proj1 (proj2 (send_complaint_order example_sender (VNumber 7) VNull
                           VUndefined (answers 204 "")))); reflexivity.
  - apply (proj2 (proj2 (send_complaint_order example_sender (VString "Title")
                           (VString "") VUndefined (answers 204 ""))));
      reflexivity.
Defined.

(** X2.  A sender whose driver is a non-empty string other than
    ["discord"] does nothing with valid arguments: no request, no report,
    no task (the [if] of line 50 has no [else]). *)
Theorem send_other_driver_is_silent (this : AlertNow)
    (title message data : value) (network : Request -> fetch_result) :
  truthy (driver this) = true ->
  truthy (webhookUrl this) = true ->
  field_is (driver this) "discord" = false ->
  nonempty_string title = true ->
  nonempty_string message = true ->
  run_send this title message data network = silent.
Proof.
  intros Hd Hw Hf Ht Hm. rewrite run_send_cases, Hd, Hw, Ht, Hm, Hf.
  reflexivity.
Qed.

Lemma send_other_driver_is_silent_witness :
  run_send {| driver := Some "slack"; webhookUrl := Some "https://hooks" |}
    (VString "Title") (VString "Body") VUndefined (answers 500 "boom")
  = silent.
Proof.
  apply send_other_driver_is_silent; reflexivity.
Defined.

(** X3.  What [send] does before it returns, and how it returns, does not
    depend on the network: the exchange is not awaited. *)
Theorem send_returns_before_the_answer (this : AlertNow)
    (title message data : value) (network1 network2 : Request -> fetch_result) :
  returned (run_send this title message data network1)
  = returned (run_send this title message data network2)
  /\ before_return (run_send this title message data network1)
     = before_return (run_send this title message data network2)
  /\ returned (run_send this title message data network1) = Return tt.
Proof.
  rewrite !run_send_cases.
  destruct (negb (truthy (driver this)) || negb (truthy (webhookUrl this)));
    [repeat split|].
  destruct (negb (nonempty_string title)); [repeat split|].
  destruct (negb (nonempty_string message)); [repeat split|].
  destruct (field_is (driver this) "discord"); repeat split.
Qed.

(** X4.  Whatever the sender, the arguments and the network, one call of
    [send] does at most one thing before it returns, a report or a request,
    and never calls [fetch] afterwards; a request it makes is a POST to the
    URL of the sender with the JSON content type and a body that is the
    serialization of an object with the one field [content]. *)
Theorem send_fetches_at_most_once (this : AlertNow)
    (title message data : value) (network : Request -> fetch_result) :
  let o := run_send this title message data network in
  count_fetch (before_return o) + count_console (before_return o) <= 1
  /\ count_fetch (after_return o) = 0
  /\ forall r,
       In (fetch r) (before_return o) ->
       url r = webhookUrl this
       /\ method r = "POST"
       /\ headers r = [("Content-Type", "application/json")]
       /\ body r =
          JSON_stringify
            (VObject [("content",
                       VString (content (string_of title) (string_of message)
                                  (default_empty_object data)))]).
Proof.
  intros o. unfold o. rewrite run_send_cases.
  assert (R : forall c,
             count_fetch (before_return (report c))
             + count_console (before_return (report c)) <= 1
             /\ count_fetch (after_return (report c)) = 0
             /\ forall r, In (fetch r) (before_return (report c)) -> False).
  { intros c. cbn. repeat split; [lia|]. intros r [F|[]]. discriminate. }
  destruct (negb (truthy (driver this)) || negb (truthy (webhookUrl this))).
  { destruct (R not_configured) as [A [B C]].
    repeat split; auto; elim (C r); assumption. }
  destruct (negb (nonempty_string title)).
  { destruct (R title_required) as [A [B C]].
    repeat split; auto; elim (C r); assumption. }
  destruct (negb (nonempty_string message)).
  { destruct (R message_required) as [A [B C]].
    repeat split; auto; elim (C r); assumption. }
  destruct (field_is (driver this) "discord").
  - cbn [before_return after_return count_fetch count_console].
    split; [lia|]. split.
    + unfold background, reports.
      destruct (network _) as [response|e]; [destruct (ok response)|];
        reflexivity.
    + intros r [[= <-]|[]]. repeat split.
  - cbn. repeat split; [lia | contradiction..].
Qed.

(** X5.  When the exchange fails (the promise of [fetch] rejects with
    [e]), a call with valid arguments on a sender made by the builder has
    returned normally after its one request, and [e] itself is reported
    twice afterwards, by the [catch] of line 95 and by the [.catch] of
    line 52; no rejection is left unhandled. *)
Theorem send_reports_network_failure (this : AlertNow)
    (title message data : value) (network : Request -> fetch_result)
    (e : exception) :
  built this ->
  nonempty_string title = true ->
  nonempty_string message = true ->
  let req := request this (string_of title) (string_of message)
               (default_empty_object data) in
  network req = Fails e ->
  run_send this title message data network =
  {| returned := Return tt;
     before_return := [fetch req];
     after_return :=
       [console_error
          [Text "Failed to send notification to Discord:"; Thrown e];
        console_error [Text "AlertNow Error:"; Thrown e]];
     unhandled := None |}.
Proof.
  intros Hb Ht Hm req Hn.
  rewrite (send_valid this title message data network
             (built_configured _ Hb) Ht Hm).
  fold req. now rewrite Hn.
Qed.

Lemma send_reports_network_failure_witness :
  run_send example_sender (VString "Title") (VString "Body") VUndefined
    (fun _ => Fails (TypeError "fetch failed"))
  = {| returned := Return tt;
       before_return :=
         [fetch (request example_sender "Title" "Body" (VObject []))];
       after_return :=
         [console_error
            [Text "Failed to send notification to Discord:";
             Thrown (TypeError "fetch failed")];
          console_error
            [Text "AlertNow Error:"; Thrown (TypeError "fetch failed")]];
       unhandled := None |}.
Proof.
  apply (send_reports_network_failure example_sender (VString "Title")
           (VString "Body") VUndefined
           (fun _ => Fails (TypeError "fetch failed"))
           (TypeError "fetch failed")).
  - example_is_built.
  - reflexivity.
  - reflexivity.
  - reflexivity.
Defined.

(** X6.  When the endpoint answers, a call with valid arguments on a sender
    made by the builder logs nothing at all exactly when the status lies
    between 200 and 299; any other status gives the two reports. *)
Theorem send_is_quiet_exactly_on_2xx (this : AlertNow)
    (title message data : value) (network : Request -> fetch_result)
    (response : Response) :
  built this ->
  nonempty_string title = true ->
  nonempty_string message = true ->
  network (request this (string_of title) (string_of message)
             (default_empty_object data)) = Responds response ->
  let o := run_send this title message data network in
  (after_return o = [] <-> (200 <= status response <= 299)%Z)
  /\ count_console (before_return o) = 0
  /\ (count_console (after_return o) = 0
      \/ count_console (after_return o) = 2).
Proof.
  intros Hb Ht Hm Hn o. unfold o.
  rewrite (send_valid this title message data network
             (built_configured _ Hb) Ht Hm).
  rewrite Hn. cbn [before_return after_return background count_console].
  unfold ok.
  destruct (Z.leb_spec 200 (status response));
    destruct (Z.leb_spec (status response) 299); cbn [andb reports];
    (split; [split; [try discriminate; intros; lia | intros; try lia;
                                                     try reflexivity]
            | split; [reflexivity | cbn; auto]]).
Qed.

Lemma send_is_quiet_exactly_on_2xx_witness :
  let o := run_send example_sender (VString "Title") (VString "Body")
             VUndefined (answers 300 "moved") in
  (after_return o = [] <-> (200 <= 300 <= 299)%Z)
  /\ count_console (before_return o) = 0
  /\ (count_console (after_return o) = 0
      \/ count_console (after_return o) = 2).
Proof.
  apply (send_is_quiet_exactly_on_2xx example_sender (VString "Title")
           (VString "Body") VUndefined (answers 300 "moved")
           {| status := 300; text := "moved" |}).
  - example_is_built.
  - reflexivity.
  - reflexivity.
  - reflexivity.
Defined.

Lemma dataStr_without_keys (data : value) :
  not_nullish data = false \/ Object_keys_length data = 0 ->
  dataStr (default_empty_object data) = "".
Proof.
  intros [H|H]; destruct data as [| |b|n|s|l|ps]; try discriminate;
    try reflexivity; cbn in H |- *.
  - destruct s; [reflexivity | discriminate].
  - destruct l; [reflexivity | discriminate].
  - destruct ps; [reflexivity | discriminate].
Qed.

(** X7.  Data without own enumerable key ([null], a number, a boolean, an
    empty string, an empty array, an empty object) makes no difference:
    the whole outcome of [send] is that of the call without data. *)
Theorem send_data_without_keys (this : AlertNow) (title message data : value)
    (network : Request -> fetch_result) :
  not_nullish data = false \/ Object_keys_length data = 0 ->
  run_send this title message data network
  = run_send this title message VUndefined network.
Proof.
  intros H. rewrite !run_send_cases.
  assert (E : request this (string_of title) (string_of message)
                (default_empty_object data)
              = request this (string_of title) (string_of message)
                  (default_empty_object VUndefined)).
  { unfold request, content.
    now rewrite (dataStr_without_keys _ H), (dataStr_without_keys VUndefined)
      by (now left). }
  now rewrite E.
Qed.

Lemma send_data_without_keys_witness :
  run_send example_sender (VString "Title") (VString "Body") (VArray [])
    (answers 500 "boom")
  = run_send example_sender (VString "Title") (VString "Body") VUndefined
      (answers 500 "boom").
Proof.
  apply (send_data_without_keys example_sender (VString "Title")
           (VString "Body") (VArray []) (answers 500 "boom")).
  right. reflexivity.
Defined.

(** X9.  Where the title, the message and the serialized data hold no
    dollar sign, a sender made by the builder posts exactly the template
    filled slot by slot: the bolded title, the fenced message and, for a
    mapping with properties, the data block around its serialization. *)
Theorem send_posts_filled_template (this : AlertNow) (t m : string)
    (properties : list (string * value)) (network : Request -> fetch_result) :
  built this ->
  t <> "" -> m <> "" ->
  dollar_free t = true ->
  dollar_free m = true ->
  dollar_free (ToString_result (JSON_stringify (VObject properties))) = true ->
  exists endpoint,
    webhookUrl this = Some endpoint /\
    before_return
      (run_send this (VString t) (VString m) (VObject properties) network)
    = [fetch
         (post endpoint
            (spec_template t m
               match properties with
               | [] => ""
               | _ :: _ =>
                   spec_dataBlock
                     (ToString_result (JSON_stringify (VObject properties)))
               end))].
Proof.
  intros Hb Ht Hm Dt Dm Dj.
  pose proof (built_configured _ Hb) as Hc.
  apply String.eqb_neq in Ht, Hm.
  rewrite (send_valid this (VString t) (VString m) (VObject properties)
             network Hc);
    cbn [nonempty_string negb]; try now rewrite ?Ht, ?Hm.
  destruct Hc as [_ Hw].
  destruct (webhookUrl this) as [endpoint|] eqn:Eu; [|discriminate].
  exists endpoint. split; [reflexivity|].
  cbn [before_return string_of default_empty_object].
  unfold request, post. rewrite Eu.
  rewrite content_meets_spec_template; auto.
  rewrite dataStr_mapping. destruct properties; [reflexivity|].
  unfold spec_dataBlock. rewrite !dollar_free_append, Dj. reflexivity.
Qed.

Lemma send_posts_filled_template_witness :
  exists endpoint,
    webhookUrl example_sender = Some endpoint /\
    before_return
      (run_send example_sender (VString "Title") (VString "Body")
         (VObject [("k", VString "v")]) (answers 204 ""))
    = [fetch
         (post endpoint
            (spec_template "Title" "Body" (spec_dataBlock (json_k "v"))))].
Proof.
  apply (send_posts_filled_template example_sender "Title" "Body"
           [("k", VString "v")] (answers 204 "")).
  - example_is_built.
  - discriminate.
  - discriminate.
  - reflexivity.
  - reflexivity.
  - reflexivity.
Defined.

(* ================================================================== *)
(** * Further properties of the builder *)

Lemma nth_error_update_other (r r' : ref) (o : object) (h : heap) :
  r <> r' -> nth_error (update r o h) r' = nth_error h r'.
Proof.
  revert r r'; induction h as [|x h IH]; intros [|r] [|r'] N; simpl;
    try reflexivity; [now elim N | apply IH; lia].
Qed.

Lemma update_twice (r : ref) (o1 o2 : object) (h : heap) :
  update r o2 (update r o1 h) = update r o2 h.
Proof.
  revert r; induction h as [|x h IH]; intros [|r]; simpl; try reflexivity.
  now rewrite IH.
Qed.

(** X10.  A call that throws leaves the heap as it was: no setter stores a
    part of a rejected configuration and a failed [build] allocates
    nothing. *)
Theorem exec_throw_keeps_heap (c : call) (h : heap) (e : exception) :
  snd (exec c h) = Throw e -> fst (exec c h) = h.
Proof.
  destruct c as [|this v|this v|this]; cbn [exec].
  - discriminate.
  - unfold setDriver.
    destruct (negb (ToBoolean v) || negb (typeof v =? "string"));
      [reflexivity|].
    destruct (negb (toLowerCase (string_of v) =? "discord")); [reflexivity|].
    unfold bind.
    destruct (builder_at_cases h this) as [[b Hb]| ->]; [|reflexivity].
    rewrite (read_builder_at _ _ _ Hb). discriminate.
  - unfold setWebhook.
    destruct (negb (ToBoolean v) || negb (typeof v =? "string"));
      [reflexivity|].
    unfold bind.
    destruct (builder_at_cases h this) as [[b Hb]| ->]; [|reflexivity].
    rewrite (read_builder_at _ _ _ Hb). discriminate.
  - destruct (builder_at_cases h this) as [[b Hb]|E].
    + rewrite (build_at _ _ _ Hb).
      destruct (negb (truthy (builder_driver b))); [reflexivity|].
      destruct (negb (truthy (builder_webhookUrl b))); [reflexivity|].
      discriminate.
    + unfold build, bind. now rewrite E.
Qed.

Lemma exec_throw_keeps_heap_witness :
  fst (exec (CallSetWebhook 0 (VString "")) (run [CallNew] []))
  = run [CallNew] [].
Proof.
  apply (exec_throw_keeps_heap (CallSetWebhook 0 (VString ""))
           (run [CallNew] []) (Error "A valid webhook URL is required")).
  reflexivity.
Defined.

(** X11.  On a builder, [setWebhook] throws exactly when its argument is
    not a non-empty string, and then with the error of line 152. *)
Theorem setWebhook_rejects (this : ref) (v : value) (h : heap)
    (b : AlertNowBuilder) :
  builder_at h this = Some b ->
  (throws (setWebhook this v h) <-> nonempty_string v = false)
  /\ (nonempty_string v = false ->
      setWebhook this v h
      = (h, Throw (Error "A valid webhook URL is required"))).
Proof.
  intros Hb.
  assert (R : nonempty_string v = false ->
              setWebhook this v h
              = (h, Throw (Error "A valid webhook URL is required"))).
  { intros H. unfold setWebhook. now rewrite argument_test, H. }
  split; [|exact R]. split.
  - intros [msg E]. destruct (nonempty_string v) eqn:Ev; [|reflexivity].
    rewrite (nonempty_string_inv _ Ev) in E.
    rewrite (setWebhook_accepts this _ h b) in E; [discriminate | | exact Hb].
    intros Hs. rewrite (nonempty_string_inv _ Ev) in Ev. cbn in Ev.
    rewrite Hs in Ev. discriminate.
  - intros H. rewrite (R H). eexists; reflexivity.
Qed.

Lemma setWebhook_rejects_witness :
  (throws (setWebhook 0 (VNumber 42) (run [CallNew] []))
   <-> nonempty_string (VNumber 42) = false)
  /\ setWebhook 0 (VNumber 42) (run [CallNew] [])
     = (run [CallNew] [], Throw (Error "A valid webhook URL is required")).
Proof.
  destruct (setWebhook_rejects 0 (VNumber 42) (run [CallNew] []) fresh_builder
              eq_refl) as [H1 H2].
  split; [exact H1 | apply H2; reflexivity].
Defined.

(** X12.  [setWebhook] takes any non-empty string as it is, without
    checking its form or changing its case; it returns the builder, keeps
    its driver and touches no other object. *)
Theorem setWebhook_stores_verbatim (this : ref) (s : string) (h : heap)
    (b : AlertNowBuilder) :
  builder_at h this = Some b ->
  s <> "" ->
  let h' := fst (setWebhook this (VString s) h) in
  snd (setWebhook this (VString s) h) = Return this
  /\ builder_at h' this
     = Some {| builder_driver := builder_driver b;
               builder_webhookUrl := Some s |}
  /\ List.length h' = List.length h
  /\ forall r, r <> this -> nth_error h' r = nth_error h r.
Proof.
  intros Hb Hs h'. unfold h'.
  rewrite (setWebhook_accepts _ _ _ _ Hs Hb). cbn [fst snd].
  split; [reflexivity|]. split; [exact (builder_at_update _ _ _ _ Hb)|].
  split; [apply length_update|].
  intros r N. apply nth_error_update_other. congruence.
Qed.

Lemma setWebhook_stores_verbatim_witness :
  let h' := fst (setWebhook 0 (VString "Not A URL") (run [CallNew] [])) in
  snd (setWebhook 0 (VString "Not A URL") (run [CallNew] [])) = Return 0
  /\ builder_at h' 0
     = Some {| builder_driver := None;
               builder_webhookUrl := Some "Not A URL" |}
  /\ List.length h' = List.length (run [CallNew] [])
  /\ forall r, r <> 0 -> nth_error h' r = nth_error (run [CallNew] []) r.
Proof.
  apply (setWebhook_stores_verbatim 0 "Not A URL" (run [CallNew] [])
           fresh_builder).
  - reflexivity.
  - discriminate.
Defined.

(** X13.  The two setters are independent: on a builder, a supported
    driver name and a non-empty URL can be set in either order, with the
    same heap and the same result. *)
Theorem setters_commute (this : ref) (p e : string) (h : heap)
    (b : AlertNowBuilder) :
  builder_at h this = Some b ->
  supported_platform (VString p) = true ->
  e <> "" ->
  (r <- setDriver this (VString p) ;; setWebhook r (VString e)) h
  = (r <- setWebhook this (VString e) ;; setDriver r (VString p)) h.
Proof.
  intros Hb Hp He. cbn in Hp. apply toLowerCase_discord in Hp.
  unfold bind.
  rewrite (setDriver_accepts _ _ _ _ Hp Hb).
  rewrite (setWebhook_accepts _ _ _ _ He Hb).
  rewrite (setWebhook_accepts _ _ _ _ He (builder_at_update _ _ _ _ Hb)).
  rewrite (setDriver_accepts _ _ _ _ Hp (builder_at_update _ _ _ _ Hb)).
  now rewrite !update_twice.
Qed.

Lemma setters_commute_witness :
  (r <- setDriver 0 (VString "Discord") ;; setWebhook r (VString "u"))
    (run [CallNew] [])
  = (r <- setWebhook 0 (VString "u") ;; setDriver r (VString "Discord"))
      (run [CallNew] []).
Proof.
  apply (setters_commute 0 "Discord" "u" (run [CallNew] []) fresh_builder).
  - reflexivity.
  - reflexivity.
  - discriminate.
Defined.

(** X14.  A setter overwrites: after two calls of [setWebhook] the builder
    is as after the second one alone. *)
Theorem setWebhook_last_wins (this : ref) (e1 e2 : string) (h : heap)
    (b : AlertNowBuilder) :
  builder_at h this = Some b ->
  e1 <> "" -> e2 <> "" ->
  (r <- setWebhook this (VString e1) ;; setWebhook r (VString e2)) h
  = setWebhook this (VString e2) h.
Proof.
  intros Hb H1 H2. unfold bind.
  rewrite (setWebhook_accepts _ _ _ _ H1 Hb).
  rewrite (setWebhook_accepts _ _ _ _ H2 (builder_at_update _ _ _ _ Hb)).
  rewrite (setWebhook_accepts _ _ _ _ H2 Hb).
  now rewrite update_twice.
Qed.

Lemma setWebhook_last_wins_witness :
  (r <- setWebhook 0 (VString "first") ;; setWebhook r (VString "second"))
    (run [CallNew] [])
  = setWebhook 0 (VString "second") (run [CallNew] []).
Proof.
  apply (setWebhook_last_wins 0 "first" "second" (run [CallNew] [])
           fresh_builder); [reflexivity | discriminate | discriminate].
Defined.

Lemma sender_at_bound (h : heap) (r : ref) (a : AlertNow) :
  sender_at h r = Some a -> r < List.length h.
Proof.
  unfold sender_at. intros H. apply nth_error_Some.
  destruct (nth_error h r); discriminate.
Qed.

Lemma sender_at_update (h : heap) (this r : ref) (b b' : AlertNowBuilder)
    (a : AlertNow) :
  builder_at h this = Some b ->
  sender_at h r = Some a ->
  sender_at (update this (ObjBuilder b') h) r = Some a.
Proof.
  intros Hb Ha. unfold sender_at.
  rewrite nth_error_update_other; [exact Ha|].
  intros ->. apply builder_at_nth in Hb. unfold sender_at in Ha.
  rewrite Hb in Ha. discriminate.
Qed.

Lemma exec_keeps_sender (c : call) (h : heap) (r : ref) (a : AlertNow) :
  sender_at h r = Some a -> sender_at (fst (exec c h)) r = Some a.
Proof.
  intros Ha. pose proof (sender_at_bound _ _ _ Ha) as L.
  destruct c as [|this v|this v|this]; cbn [exec].
  - cbn. now rewrite sender_at_old.
  - unfold setDriver.
    destruct (negb (ToBoolean v) || negb (typeof v =? "string")); [exact Ha|].
    destruct (negb (toLowerCase (string_of v) =? "discord")); [exact Ha|].
    unfold bind.
    destruct (builder_at_cases h this) as [[b Hb]| ->]; [|exact Ha].
    rewrite (read_builder_at _ _ _ Hb). cbn.
    exact (sender_at_update _ _ _ _ _ _ Hb Ha).
  - unfold setWebhook.
    destruct (negb (ToBoolean v) || negb (typeof v =? "string")); [exact Ha|].
    unfold bind.
    destruct (builder_at_cases h this) as [[b Hb]| ->]; [|exact Ha].
    rewrite (read_builder_at _ _ _ Hb). cbn.
    exact (sender_at_update _ _ _ _ _ _ Hb Ha).
  - destruct (builder_at_cases h this) as [[b Hb]|E].
    + rewrite (build_at _ _ _ Hb).
      destruct (negb (truthy (builder_driver b))); [exact Ha|].
      destruct (negb (truthy (builder_webhookUrl b))); [exact Ha|].
      cbn. now rewrite sender_at_old.
    + unfold build, bind. now rewrite E.
Qed.

(** X15.  A sender never changes: whatever calls a client makes afterwards
    on builders (setters, builds, failing calls included), the reference
    still names the same driver and URL. *)
Theorem run_keeps_senders (cs : list call) (h : heap) (r : ref)
    (a : AlertNow) :
  sender_at h r = Some a -> sender_at (run cs h) r = Some a.
Proof.
  revert h; induction cs as [|c cs IH]; intros h Ha; [exact Ha|].
  cbn [run]. apply IH, exec_keeps_sender, Ha.
Qed.

Lemma run_keeps_senders_witness :
  sender_at
    (run [CallSetWebhook 0 (VString "https://elsewhere.test/hook");
          CallSetDriver 0 (VNumber 1);
          CallBuild 0]
       (run example_program []))
    1
  = Some example_sender.
Proof.
  apply (run_keeps_senders
           [CallSetWebhook 0 (VString "https://elsewhere.test/hook");
            CallSetDriver 0 (VNumber 1);
            CallBuild 0]
           (run example_program []) 1 example_sender).
  reflexivity.
Defined.

(** X16.  A builder can be used again: build, change the URL, build again.
    The first sender keeps the URL it was built with and the second one
    has the new URL; they are distinct objects. *)
Theorem builder_reuse (this : ref) (e2 : string) (h : heap)
    (b : AlertNowBuilder) :
  builder_at h this = Some b ->
  truthy (builder_driver b) = true ->
  truthy (builder_webhookUrl b) = true ->
  e2 <> "" ->
  exists h' r1 r2,
    (r1 <- build this ;;
     _ <- setWebhook this (VString e2) ;;
     r2 <- build this ;;
     ret (r1, r2)) h
    = (h', Return (r1, r2))
    /\ r1 <> r2
    /\ sender_at h' r1
       = Some {| driver := builder_driver b;
                 webhookUrl := builder_webhookUrl b |}
    /\ sender_at h' r2
       = Some {| driver := builder_driver b; webhookUrl := Some e2 |}.
Proof.
  intros Hb Td Tw He.
  set (a1 := {| driver := builder_driver b;
                webhookUrl := builder_webhookUrl b |}).
  set (h1 := (h ++ [ObjAlertNow a1])%list).
  assert (B1 : build this h = (h1, Return (List.length h))).
  { rewrite (build_at _ _ _ Hb), Td, Tw. reflexivity. }
  assert (Hb1 : builder_at h1 this = Some b) by now apply builder_at_old.
  set (b2 := {| builder_driver := builder_driver b;
                builder_webhookUrl := Some e2 |}).
  set (h2 := update this (ObjBuilder b2) h1).
  assert (W : setWebhook this (VString e2) h1 = (h2, Return this))
    by exact (setWebhook_accepts _ _ _ _ He Hb1).
  assert (Hb2 : builder_at h2 this = Some b2)
    by exact (builder_at_update _ _ _ _ Hb1).
  set (a2 := {| driver := builder_driver b; webhookUrl := Some e2 |}).
  assert (B2 : build this h2
               = ((h2 ++ [ObjAlertNow a2])%list, Return (List.length h2))).
  { rewrite (build_at _ _ _ Hb2). cbn [b2 builder_driver builder_webhookUrl].
    rewrite Td. cbn [truthy]. apply String.eqb_neq in He. rewrite He.
    reflexivity. }
  assert (L2 : List.length h2 = S (List.length h)).
  { unfold h2. rewrite length_update. unfold h1. rewrite length_app.
    cbn. lia. }
  exists (h2 ++ [ObjAlertNow a2])%list, (List.length h), (List.length h2).
  split; [|split; [lia|split]].
  - unfold bind. rewrite B1, W, B2. reflexivity.
  - rewrite sender_at_old by lia.
    apply (sender_at_update h1 this _ b b2 a1 Hb1).
    apply sender_at_new.
  - apply sender_at_new.
Qed.

Lemma builder_reuse_witness :
  exists h' r1 r2,
    (r1 <- build 0 ;;
     _ <- setWebhook 0 (VString "https://discord.test/api/webhooks/2") ;;
     r2 <- build 0 ;;
     ret (r1, r2))
      (run [CallNew;
            CallSetDriver 0 (VString "discord");
            CallSetWebhook 0 (VString "https://discord.test/api/webhooks/1")]
         [])
    = (h', Return (r1, r2))
    /\ r1 <> r2
    /\ sender_at h' r1 = Some example_sender
    /\ sender_at h' r2
       = Some {| driver := Some "discord";
                 webhookUrl := Some "https://discord.test/api/webhooks/2" |}.
Proof.
  apply (builder_reuse 0 "https://discord.test/api/webhooks/2"
           (run [CallNew;
                 CallSetDriver 0 (VString "discord");
                 CallSetWebhook 0
                   (VString "https://discord.test/api/webhooks/1")] [])
           {| builder_driver := Some "discord";
              builder_webhookUrl :=
                Some "https://discord.test/api/webhooks/1" |});
    [reflexivity | reflexivity | reflexivity | discriminate].
Defined.

(** X17.  [build] on a new builder fails, and it checks the driver first:
    without setter, or with the URL alone, the error is the one about the
    driver; with the driver alone it is the one about the URL.  The heap
    holds the builder and no sender. *)
Theorem build_before_setters (h : heap) (p e : string) :
  supported_platform (VString p) = true ->
  e <> "" ->
  snd ((b <- new_AlertNowBuilder ;; build b) h)
  = Throw (Error "Driver must be set before building")
  /\ snd ((b <- new_AlertNowBuilder ;;
           _ <- setWebhook b (VString e) ;; build b) h)
     = Throw (Error "Driver must be set before building")
  /\ snd ((b <- new_AlertNowBuilder ;;
           _ <- setDriver b (VString p) ;; build b) h)
     = Throw (Error "Webhook URL must be set before building")
  /\ List.length
       (fst ((b <- new_AlertNowBuilder ;;
              _ <- setDriver b (VString p) ;; build b) h))
     = S (List.length h).
Proof.
  intros Hp He. cbn in Hp. apply toLowerCase_discord in Hp.
  set (h1 := (h ++ [ObjBuilder fresh_builder])%list).
  assert (Hb : builder_at h1 (List.length h) = Some fresh_builder).
  { unfold builder_at, h1.
    now rewrite nth_error_app2, Nat.sub_diag by lia. }
  assert (N : new_AlertNowBuilder h = (h1, Return (List.length h)))
    by reflexivity.
  unfold bind. rewrite N.
  rewrite (build_at _ _ _ Hb).
  rewrite (setWebhook_accepts _ _ _ _ He Hb).
  rewrite (setDriver_accepts _ _ _ _ Hp Hb).
  rewrite !(build_at _ _ _ (builder_at_update _ _ _ _ Hb)).
  cbn. repeat split.
  rewrite length_update. unfold h1. rewrite length_app. cbn. lia.
Qed.

Lemma build_before_setters_witness :
  snd ((b <- new_AlertNowBuilder ;; build b) [])
  = Throw (Error "Driver must be set before building")
  /\ snd ((b <- new_AlertNowBuilder ;;
           _ <- setWebhook b (VString "u") ;; build b) [])
     = Throw (Error "Driver must be set before building")
  /\ snd ((b <- new_AlertNowBuilder ;;
           _ <- setDriver b (VString "DISCORD") ;; build b) [])
     = Throw (Error "Webhook URL must be set before building")
  /\ List.length
       (fst ((b <- new_AlertNowBuilder ;;
              _ <- setDriver b (VString "DISCORD") ;; build b) []))
     = 1.
Proof.
  apply (build_before_setters [] "DISCORD" "u"); [reflexivity | discriminate].
Defined.

(** X18.  Whatever spellings and values the calls of a client carried,
    a builder of a reachable heap holds no driver or exactly ["discord"],
    and no URL or a non-empty one; so [build] succeeds on it as soon as
    both fields are set. *)
Theorem reachable_builder_fields (h : heap) (r : ref) (b : AlertNowBuilder) :
  reachable h ->
  builder_at h r = Some b ->
  (builder_driver b = None \/ builder_driver b = Some "discord")
  /\ (builder_webhookUrl b = None
      \/ exists e, builder_webhookUrl b = Some e /\ e <> "")
  /\ (builder_driver b <> None ->
      builder_webhookUrl b <> None ->
      build r h
      = ((h ++ [ObjAlertNow {| driver := Some "discord";
                               webhookUrl := builder_webhookUrl b |}])%list,
         Return (List.length h))).
Proof.
  intros Hh Hb.
  destruct (heap_ok_builder _ _ _ (reachable_ok _ Hh) Hb) as [Hd Hw].
  split; [exact Hd|]. split.
  - destruct (builder_webhookUrl b) as [e|]; [right | now left].
    exists e. split; [reflexivity|]. intros ->. now elim Hw.
  - intros Nd Nw. rewrite (build_at _ _ _ Hb).
    destruct Hd as [Hd|Hd]; [now elim Nd|]. rewrite Hd.
    destruct (builder_webhookUrl b) as [e|]; [|now elim Nw].
    cbn [truthy String.eqb negb].
    destruct (String.eqb_spec e "") as [->|Ne]; [now elim Hw | reflexivity].
Qed.

Lemma reachable_builder_fields_witness :
  let h := run [CallNew;
                CallSetDriver 0 (VString "DiScOrD");
                CallSetWebhook 0 (VString "u");
                CallSetWebhook 0 (VString "")] [] in
  (Some "discord" = None \/ Some "discord" = Some "discord")
  /\ (Some "u" = None \/ exists e, Some "u" = Some e /\ e <> "")
  /\ build 0 h
     = ((h ++ [ObjAlertNow {| driver := Some "discord";
                              webhookUrl := Some "u" |}])%list,
        Return (List.length h)).
Proof.
  intros h.
  destruct (reachable_builder_fields h 0
              {| builder_driver := Some "discord";
                 builder_webhookUrl := Some "u" |})
    as [H1 [H2 H3]].
  - exists [CallNew;
            CallSetDriver 0 (VString "DiScOrD");
            CallSetWebhook 0 (VString "u");
            CallSetWebhook 0 (VString "")].
    reflexivity.
  - reflexivity.
  - split; [exact H1|]. split; [exact H2|].
    apply H3; discriminate.
Defined.

(* ================================================================== *)
(** * Properties of [_formatDiscordData] *)

Lemma formatDiscordData_mapping (p : string * value)
    (ps : list (string * value)) :
  _formatDiscordData (VObject (p :: ps)) =
  map (fun kv =>
         {| Field.name := fst kv;
            Field.value :=
              if typeof (snd kv) =? "object"
              then "```json" ++ nl
                   ++ ToString_result (JSON_stringify_indented (snd kv))
                   ++ nl ++ "```"
              else ToString (snd kv) |})
    (p :: ps).
Proof. reflexivity. Qed.

Lemma length_indexed {A : Type} (i : nat) (l : list A) :
  List.length (indexed i l) = List.length l.
Proof.
  revert i; induction l as [|x l IH]; intros i; simpl; [reflexivity|].
  now rewrite IH.
Qed.

(** X19.  [_formatDiscordData] gives no field for [null], [undefined],
    booleans, numbers, strings of any length and objects or arrays without
    element; for every other value it gives at least one. *)
Theorem formatDiscordData_empty (data : value) :
  _formatDiscordData data = [] <->
  match data with
  | VObject (_ :: _) => False
  | VArray (_ :: _) => False
  | _ => True
  end.
Proof.
  assert (T : forall v, (typeof v =? "object") = false ->
                        _formatDiscordData v = []).
  { intros v H. unfold _formatDiscordData. rewrite H. cbn [negb].
    now rewrite orb_true_r. }
  destruct data as [| |b|n|s|l|ps].
  - split; [exact (fun _ => I) | reflexivity].
  - split; [exact (fun _ => I) | reflexivity].
  - split; [exact (fun _ => I) | intros _; now apply T].
  - split; [exact (fun _ => I) | intros _; now apply T].
  - split; [exact (fun _ => I) | intros _; now apply T].
  - destruct l as [|x l]; [split; [exact (fun _ => I) | reflexivity]|].
    split; [discriminate | contradiction].
  - destruct ps as [|p ps]; [split; [exact (fun _ => I) | reflexivity]|].
    split; [discriminate | contradiction].
Qed.

(** X20.  For a mapping, [_formatDiscordData] gives one field per
    property, in the order of the properties and named by their keys; the
    value of a property that is no object (a string, a number, a boolean,
    [undefined]) is its plain text, a string being neither quoted nor
    escaped.  For an array the fields are named by the indices. *)
Theorem formatDiscordData_fields (properties : list (string * value))
    (elements : list value) :
  map Field.name (_formatDiscordData (VObject properties))
  = map fst properties
  /\ (forall k v,
        In (k, v) properties ->
        (typeof v =? "object") = false ->
        In {| Field.name := k; Field.value := ToString v |}
          (_formatDiscordData (VObject properties)))
  /\ (forall k s,
        In (k, VString s) properties ->
        In {| Field.name := k; Field.value := s |}
          (_formatDiscordData (VObject properties)))
  /\ map Field.name (_formatDiscordData (VArray elements))
     = map fst (indexed 0 elements)
  /\ List.length (_formatDiscordData (VArray elements))
     = List.length elements.
Proof.
  assert (P : forall k v,
             In (k, v) properties ->
             (typeof v =? "object") = false ->
             In {| Field.name := k; Field.value := ToString v |}
               (_formatDiscordData (VObject properties))).
  { intros k v Hin Hv. destruct properties as [|p ps]; [contradiction|].
    rewrite formatDiscordData_mapping.
    apply in_map_iff. exists (k, v). cbn [fst snd]. now rewrite Hv. }
  split; [|split; [exact P|split; [|split]]].
  - destruct properties as [|p ps]; [reflexivity|].
    rewrite formatDiscordData_mapping, map_map. reflexivity.
  - intros k s Hin. exact (P k (VString s) Hin eq_refl).
  - destruct elements as [|x l]; [reflexivity|].
    unfold _formatDiscordData.
    cbn [ToBoolean typeof Object_keys_length List.length Object_entries
         negb orb Nat.eqb].
    rewrite String.eqb_refl. cbn [negb orb].
    now rewrite map_map.
  - destruct elements as [|x l]; [reflexivity|].
    unfold _formatDiscordData.
    cbn [ToBoolean typeof Object_keys_length List.length Object_entries
         negb orb Nat.eqb].
    rewrite String.eqb_refl. cbn [negb orb].
    now rewrite length_map, length_indexed.
Qed.

Lemma formatDiscordData_fields_witness :
  In {| Field.name := "service"; Field.value := "user-auth" |}
    (_formatDiscordData
       (VObject [("service", VString "user-auth"); ("retries", VNumber 3)]))
  /\ In {| Field.name := "retries"; Field.value := "3" |}
       (_formatDiscordData
          (VObject [("service", VString "user-auth"); ("retries", VNumber 3)])).
Proof.
  destruct (formatDiscordData_fields
              [("service", VString "user-auth"); ("retries", VNumber 3)] [])
    as [_ [H1 [H2 _]]].
  split.
  - apply H2. left. reflexivity.
  - apply (H1 "retries" (VNumber 3)); [right; left; reflexivity | reflexivity].
Defined.
